(** * COVID-19 Global Data Tracker: the data-cleaning cell, embedded and verified

    The development embeds the code cell "3. Data Cleaning" of
    [COVID19_Global_Data_Tracker.ipynb]: the wide-to-long reshaper
    [reshape_jhu], the date conversion, the three-way merge of the JHU series,
    the country selection, the two [fillna] passes, the daily metrics, the
    vaccination rate and the final left merge with the OWID table.

    Conventions of the embedding.
    - A data frame is the list of its rows, in frame order; a wide table is
      kept column-wise, the way [pd.melt] walks it.
    - A numeric input cell is [option Z]: an integer count, or [None] for
      pandas' NaN.  Quotients live in [float], which has NaN and the two
      infinities; finite values are exact rationals, so rounding of IEEE
      doubles is abstracted away.
    - A character is a code point below 256; a timestamp is an integer.
    - [pd.to_datetime] is a library function: the call on a whole column,
      with the warnings it emits and the exception it may raise, is a
      parameter of the development.  The frames hold timestamps: a column
      that pandas would convert with NaT entries is outside it. *)

From Stdlib Require Import String Ascii List ZArith QArith Bool Lia Arith.
From Stdlib Require Import Permutation Sorted OrderedTypeEx.
Import ListNotations.

Local Open Scope Z_scope.
Local Open Scope string_scope.
Local Open Scope list_scope.

(** ** Numbers *)

Module Num.

(** A cell read from a CSV of counts: an integer, or NaN. *)
Definition cell := option Z.

(** A float64 value, finite values being exact. *)
Inductive float : Type :=
| NaN : float
| Fin : Q -> float
| PInf : float
| NInf : float.

Definition of_cell (c : cell) : float :=
  match c with
  | None => NaN
  | Some z => Fin (inject_Z z)
  end.

Definition Qzerob (q : Q) : bool := Z.eqb (Qnum q) 0.
Definition Qposb (q : Q) : bool := Z.ltb 0 (Qnum q).

Definition inf_of_sign (positive : bool) : float :=
  if positive then PInf else NInf.

(** IEEE division: x / 0 is an infinity of the sign of x, 0 / 0 is NaN. *)
Definition fdiv (x y : float) : float :=
  match x, y with
  | NaN, _ | _, NaN => NaN
  | Fin a, Fin b =>
      if Qzerob b then
        (if Qzerob a then NaN else inf_of_sign (Qposb a))
      else Fin (Qred (a / b))
  | Fin _, PInf | Fin _, NInf => Fin 0
  | PInf, Fin b => inf_of_sign (Qposb b || Qzerob b)
  | NInf, Fin b => inf_of_sign (negb (Qposb b || Qzerob b))
  | PInf, PInf | PInf, NInf | NInf, PInf | NInf, NInf => NaN
  end.

(** IEEE multiplication: 0 * inf is NaN. *)
Definition fmul (x y : float) : float :=
  match x, y with
  | NaN, _ | _, NaN => NaN
  | Fin a, Fin b => Fin (Qred (a * b))
  | Fin a, PInf | PInf, Fin a =>
      if Qzerob a then NaN else inf_of_sign (Qposb a)
  | Fin a, NInf | NInf, Fin a =>
      if Qzerob a then NaN else inf_of_sign (negb (Qposb a))
  | PInf, PInf | NInf, NInf => PInf
  | PInf, NInf | NInf, PInf => NInf
  end.

(** Subtraction of two cells; NaN propagates. *)
Definition cell_sub (x y : cell) : cell :=
  match x, y with
  | Some a, Some b => Some (a - b)
  | _, _ => None
  end.

(** [Series.fillna(v)] on one cell. *)
Definition fillna (v : Z) (c : cell) : cell :=
  match c with
  | None => Some v
  | Some _ => c
  end.

(** [Series.replace(a, b)] on one cell; NaN is left alone. *)
Definition replace (a b : Z) (c : cell) : cell :=
  match c with
  | Some z => if Z.eqb z a then Some b else c
  | None => None
  end.

Definition is_nan (x : float) : bool :=
  match x with
  | NaN => true
  | _ => false
  end.

End Num.
Import Num.

(** ** Strings *)

Module Str.

(** [str.isspace] on one character of the Latin-1 range. *)
Definition is_space (c : ascii) : bool :=
  let n := nat_of_ascii c in
  ((9 <=? n) && (n <=? 13))%nat || ((28 <=? n) && (n <=? 32))%nat
  || (n =? 133)%nat || (n =? 160)%nat.

Fixpoint lstrip (s : list ascii) : list ascii :=
  match s with
  | [] => []
  | c :: s' => if is_space c then lstrip s' else s
  end.

Definition rstrip (s : list ascii) : list ascii := rev (lstrip (rev s)).

(** [str.strip()] *)
Definition strip (s : string) : string :=
  string_of_list_ascii (rstrip (lstrip (list_ascii_of_string s))).

(** [str.split(sep)] for a one-character separator: never the empty list. *)
Fixpoint split (sep : ascii) (s : string) : list string :=
  match s with
  | EmptyString => [EmptyString]
  | String c s' =>
      if Ascii.eqb c sep then EmptyString :: split sep s'
      else match split sep s' with
           | [] => [String c EmptyString]
           | w :: ws => String c w :: ws
           end
  end.

(** [x in l] / [Series.isin(l)] on one value. *)
Definition isin (x : string) (l : list string) : bool :=
  existsb (String.eqb x) l.

(** [d.get(k, default)] on a dict kept as an association list. *)
Fixpoint dict_get (d : list (string * string)) (k default : string) : string :=
  match d with
  | [] => default
  | (k', v) :: d' => if String.eqb k k' then v else dict_get d' k default
  end.

End Str.
Import Str.

(** ** The wide-to-long reshaper *)

(** The four identifier columns of a JHU file. *)
Record id_cols : Type := mk_id {
  Province_State : option string;
  Country_Region : string;
  Lat : option Q;
  Long : option Q
}.

(** A wide JHU table: the identifier columns row by row, then one column
    per date, each with its header ([df.columns[4:]]). *)
Record wide_table : Type := mk_wide {
  id_rows : list id_cols;
  date_columns : list (string * list cell)
}.

(** Every date column has one cell per row. *)
Definition rectangular (df : wide_table) : Prop :=
  Forall (fun col => length (snd col) = length (id_rows df)) (date_columns df).

Record long_row : Type := mk_long {
  l_id : id_cols;
  l_date : string;
  l_value : cell
}.

Record long_table : Type := mk_long_table {
  value_name : string;
  long_rows : list long_row
}.

Definition melt_column (ids : list id_cols) (col : string * list cell)
  : list long_row :=
  map (fun iv => mk_long (fst iv) (fst col) (snd iv)) (combine ids (snd col)).

(** [pd.melt(df, id_vars=[...4 columns], value_vars=df.columns[4:],
    var_name='date', value_name=value_name)]: column after column, the rows
    of each column in frame order. *)
Definition reshape_jhu (df : wide_table) (value_name : string) : long_table :=
  mk_long_table value_name
    (flat_map (melt_column (id_rows df)) (date_columns df)).

(** [id_vars], the names of the four identifier columns. *)
Definition id_vars : list string :=
  ["Province/State"; "Country/Region"; "Lat"; "Long"].

(** [df.columns]: the identifier columns, then the date headers. *)
Definition columns (df : wide_table) : list string :=
  id_vars ++ map fst (date_columns df).

(** The (country, date, value) triple of a long record. *)
Definition triple (r : long_row) : string * string * cell :=
  (Country_Region (l_id r), l_date r, l_value r).

(** The long records cut into runs of one header. *)
Fixpoint blocks (rows : list long_row) : list (string * list long_row) :=
  match rows with
  | [] => []
  | r :: rows' =>
      match blocks rows' with
      | (h, b) :: bs =>
          if String.eqb (l_date r) h then (h, r :: b) :: bs
          else (l_date r, [r]) :: (h, b) :: bs
      | [] => [(l_date r, [r])]
      end
  end.

(** Modelled from the spec: the re-widening of the round-trip law, which the
    notebook does not contain.  It reads the long records with all their
    identifier columns: one date column per run of records with one header,
    the identifier rows from the first run. *)
Definition rewiden (rows : list long_row) : wide_table :=
  mk_wide
    (match blocks rows with
     | [] => []
     | (_, b) :: _ => map l_id b
     end)
    (map (fun hb => (fst hb, map l_value (snd hb))) (blocks rows)).

(** ** Exceptions, and what the cell writes *)

(** The one exception the modelled statements can raise: the one of
    [pd.to_datetime] on a column it refuses, with its message. *)
Inductive exn : Type :=
| DateParseError : string -> exn.

Definition result (A : Type) : Type := (exn + A)%type.

Definition ret {A : Type} (a : A) : result A := inr a.

Definition bind {A B : Type} (m : result A) (k : A -> result B) : result B :=
  match m with
  | inl e => inl e
  | inr a => k a
  end.

Notation "x <- m ;; k" := (bind m (fun x => k))
  (at level 61, m at next level, right associativity).

(** What a run shows to its user; a warning is shown by its category. *)
Inductive event : Type :=
| Printed : string -> event
| Prompted : string -> event
| Warned : string -> event.


(** ** Frames of the cleaning cell *)

Definition key : Type := (string * Z)%type.

Definition key_eqb (k1 k2 : key) : bool :=
  String.eqb (fst k1) (fst k2) && Z.eqb (snd k1) (snd k2).

(** A long row once its date is a timestamp. *)
Record dated_row : Type := mk_dated {
  d_id : id_cols;
  d_date : Z;
  d_value : cell
}.

(** [df[['Country/Region', 'date', value_name]]] *)
Record series_row : Type := mk_series {
  s_country : string;
  s_date : Z;
  s_value : cell
}.

Definition series_key (r : series_row) : key := (s_country r, s_date r).

Record jhu_row : Type := mk_jhu {
  country : string;
  date : Z;
  total_cases : cell;
  total_deaths : cell;
  total_recovered : cell
}.

Definition jhu_key (r : jhu_row) : key := (country r, date r).

Record metrics_row : Type := mk_metrics {
  m_row : jhu_row;
  new_cases : cell;
  new_deaths : cell;
  death_rate : float
}.

Definition metrics_key (r : metrics_row) : key := jhu_key (m_row r).

(** The six OWID columns the cell keeps, [date] still a string. *)
Record owid_raw : Type := mk_owid_raw {
  raw_location : string;
  raw_date : string;
  raw_total_vaccinations : cell;
  raw_people_fully_vaccinated : cell;
  raw_population : cell;
  raw_iso_code : option string
}.

Record owid_row : Type := mk_owid {
  location : string;
  o_date : Z;
  total_vaccinations : cell;
  people_fully_vaccinated : cell;
  population : cell;
  iso_code : option string
}.

Definition owid_key (r : owid_row) : key := (location r, o_date r).

Record rated_row : Type := mk_rated {
  r_row : owid_row;
  vaccination_rate : float
}.

Definition rated_key (r : rated_row) : key := owid_key (r_row r).

(** A row of [df_combined]. *)
Record panel_row : Type := mk_panel {
  p_country : string;
  p_date : Z;
  p_total_cases : cell;
  p_total_deaths : cell;
  p_total_recovered : cell;
  p_new_cases : cell;
  p_new_deaths : cell;
  p_death_rate : float;
  p_total_vaccinations : cell;
  p_people_fully_vaccinated : cell;
  p_population : cell;
  p_iso_code : option string;
  p_vaccination_rate : float
}.

Definition panel_key (r : panel_row) : key := (p_country r, p_date r).

(** ** pandas operations on frames *)

Module Frame.

Section Merge.
Context {A B C : Type}.
Variable kl : A -> key.
Variable kr : B -> key.

Definition matches (a : A) (r : list B) : list B :=
  filter (fun b => key_eqb (kl a) (kr b)) r.

(** [l.merge(r, on=key)]: every pair of rows with equal keys, in the
    order of the left rows. *)
Definition merge_inner (f : A -> B -> C) (l : list A) (r : list B) : list C :=
  flat_map (fun a => map (f a) (matches a r)) l.

(** [l.merge(r, on=key, how='left')]: a left row without a match is kept
    once, the right columns unset. *)
Definition merge_left (f : A -> option B -> C) (l : list A) (r : list B)
  : list C :=
  flat_map (fun a =>
    match matches a r with
    | [] => [f a None]
    | ms => map (fun b => f a (Some b)) ms
    end) l.
End Merge.

(** The order of [sort_values(['Country/Region', 'date'])]. *)
Definition key_leb (k1 k2 : key) : bool :=
  String.ltb (fst k1) (fst k2)
  || (String.eqb (fst k1) (fst k2) && Z.leb (snd k1) (snd k2)).

Section Sort.
Context {A : Type}.
Variable kf : A -> key.

Fixpoint insert (x : A) (l : list A) : list A :=
  match l with
  | [] => [x]
  | y :: l' => if key_leb (kf x) (kf y) then x :: l else y :: insert x l'
  end.

(** A stable sort by key, as the multi-column [sort_values] is. *)
Fixpoint sort_values (l : list A) : list A :=
  match l with
  | [] => []
  | x :: l' => insert x (sort_values l')
  end.
End Sort.

(** [df.groupby(g)[col].diff()]: each value minus the previous value of its
    group, NaN for the first row of a group.  [last] holds the latest value
    seen for each group. *)
Fixpoint groupby_diff (last : string -> option cell) (rows : list (string * cell))
  : list cell :=
  match rows with
  | [] => []
  | (g, v) :: rows' =>
      (match last g with
       | None => None
       | Some p => cell_sub v p
       end)
      :: groupby_diff (fun g' => if String.eqb g' g then Some v else last g') rows'
  end.

(** Two rows in the order of the sort. *)
Definition ordered {A : Type} (kf : A -> key) (a b : A) : Prop :=
  key_leb (kf a) (kf b) = true.

(** The rows of a frame that carry a given key. *)
Definition rows_at {A : Type} (kf : A -> key) (k : key) (l : list A) : list A :=
  filter (fun x => key_eqb k (kf x)) l.

(** The difference with the row just above when it belongs to the same
    group, NaN otherwise: what [groupby_diff] amounts to on a frame whose
    groups are contiguous. *)
Fixpoint adjacent_diff (prev : option (string * cell))
  (rows : list (string * cell)) : list cell :=
  match rows with
  | [] => []
  | (g, v) :: rows' =>
      (match prev with
       | Some (g0, v0) => if String.eqb g0 g then cell_sub v v0 else None
       | None => None
       end)
      :: adjacent_diff (Some (g, v)) rows'
  end.

(** Group names in the order of the sort. *)
Definition group_le (a b : string) : Prop := String.ltb a b = true \/ a = b.

(** [last] remembers the row just passed, and otherwise only groups that
    come before it. *)
Definition tracks (last : string -> option cell) (prev : option (string * cell))
  : Prop :=
  match prev with
  | None => forall g, last g = None
  | Some (g0, v0) =>
      last g0 = Some v0 /\
      forall g x, last g = Some x -> g <> g0 -> String.ltb g g0 = true
  end.

(** The groups still to come are not before the row just passed. *)
Definition after (prev : option (string * cell)) (groups : list string) : Prop :=
  match prev with
  | None => True
  | Some (g0, _) => Forall (group_le g0) groups
  end.

End Frame.
Import Frame.

(** ** The cleaning cell *)

Module Tracker.

Definition default_countries : list string :=
  ["Kenya"; "United States"; "India"].

Definition jhu_to_owid : list (string * string) :=
  [("US", "United States")].

(** [[c.strip() for c in user_input.split(',')] if user_input
     else default_countries] *)
Definition read_countries (user_input : string) : list string :=
  match user_input with
  | EmptyString => default_countries
  | _ => map strip (split ","%char user_input)
  end.

(** [[jhu_to_owid.get(c, c) for c in countries]] *)
Definition countries_jhu (countries : list string) : list string :=
  map (fun c => dict_get jhu_to_owid c c) countries.

(** What a library call gives that may warn and may raise: the categories
    of the warnings it emits, then its value or its exception. *)
Definition converted (A : Type) : Type := (list string * result A)%type.

Section Dates.
(** [pd.to_datetime] on a column of strings, taken as a whole: how it reads
    one string may depend on the others. *)
Variable to_datetime : list string -> converted (list Z).

(** [df_long['date'] = pd.to_datetime(df_long['date'])]: the column is
    converted in one call and written back row by row. *)
Definition to_datetime_long (rows : list long_row) : converted (list dated_row) :=
  let call := to_datetime (map l_date rows) in
  (fst call,
   ds <- snd call ;;
   ret (map (fun rd => mk_dated (l_id (fst rd)) (snd rd) (l_value (fst rd)))
          (combine rows ds))).

(** [df_owid['date'] = pd.to_datetime(df_owid['date'])] *)
Definition to_datetime_owid (rows : list owid_raw) : converted (list owid_row) :=
  let call := to_datetime (map raw_date rows) in
  (fst call,
   ds <- snd call ;;
   ret (map (fun rd =>
               mk_owid (raw_location (fst rd)) (snd rd)
                 (raw_total_vaccinations (fst rd))
                 (raw_people_fully_vaccinated (fst rd)) (raw_population (fst rd))
                 (raw_iso_code (fst rd)))
          (combine rows ds))).
End Dates.

(** [df_long[['Country/Region', 'date', value_name]]] *)
Definition select (rows : list dated_row) : list series_row :=
  map (fun r => mk_series (Country_Region (d_id r)) (d_date r) (d_value r)) rows.

Record cases_deaths_row : Type := mk_cd {
  cd_country : string;
  cd_date : Z;
  cd_cases : cell;
  cd_deaths : cell
}.

Definition cd_key (r : cases_deaths_row) : key := (cd_country r, cd_date r).

Definition join_deaths (c d : series_row) : cases_deaths_row :=
  mk_cd (s_country c) (s_date c) (s_value c) (s_value d).

Definition join_recovered (cd : cases_deaths_row) (r : option series_row)
  : jhu_row :=
  mk_jhu (cd_country cd) (cd_date cd) (cd_cases cd) (cd_deaths cd)
    (match r with
     | Some r' => s_value r'
     | None => None
     end).

(** The three-way merge: cases with deaths (inner), then recoveries (left). *)
Definition df_jhu (confirmed deaths recovered : list dated_row) : list jhu_row :=
  merge_left cd_key series_key join_recovered
    (merge_inner series_key series_key join_deaths
       (select confirmed) (select deaths))
    (select recovered).

(** [df_jhu[df_jhu['Country/Region'].isin(countries_jhu)]] *)
Definition filter_jhu (df : list jhu_row) (names : list string) : list jhu_row :=
  filter (fun r => isin (country r) names) df.

(** [df_owid[df_owid['location'].isin(countries)]] *)
Definition filter_owid (df : list owid_row) (names : list string)
  : list owid_row :=
  filter (fun r => isin (location r) names) df.

(** [fillna({'total_cases': 0, 'total_deaths': 0, 'total_recovered': 0})] *)
Definition fillna_jhu (df : list jhu_row) : list jhu_row :=
  map (fun r => mk_jhu (country r) (date r) (fillna 0 (total_cases r))
                  (fillna 0 (total_deaths r)) (fillna 0 (total_recovered r))) df.

(** [fillna({'total_vaccinations': 0, 'people_fully_vaccinated': 0})] *)
Definition fillna_owid (df : list owid_row) : list owid_row :=
  map (fun r => mk_owid (location r) (o_date r) (fillna 0 (total_vaccinations r))
                  (fillna 0 (people_fully_vaccinated r)) (population r)
                  (iso_code r)) df.

(** [df.groupby('Country/Region')[col].diff().fillna(0)] *)
Definition daily (col : jhu_row -> cell) (df : list jhu_row) : list cell :=
  map (fillna 0)
    (groupby_diff (fun _ => None) (map (fun r => (country r, col r)) df)).

(** [df['total_deaths'] / df['total_cases'].replace(0, 1)] on one row. *)
Definition death_rate_of (r : jhu_row) : float :=
  fdiv (of_cell (total_deaths r)) (of_cell (replace 0 1 (total_cases r))).

Definition add_columns (r : jhu_row) (ncd : cell * cell) : metrics_row :=
  mk_metrics r (fst ncd) (snd ncd) (death_rate_of r).

(** The three assignments of the daily metrics. *)
Definition add_metrics (df : list jhu_row) : list metrics_row :=
  map (fun x => add_columns (fst x) (snd x))
    (combine df (combine (daily total_cases df) (daily total_deaths df))).

(** [(df['people_fully_vaccinated'] / df['population']) * 100] on one row. *)
Definition vaccination_rate_of (r : owid_row) : float :=
  fmul (fdiv (of_cell (people_fully_vaccinated r)) (of_cell (population r)))
    (Fin (inject_Z 100)).

Definition add_vaccination_rate (df : list owid_row) : list rated_row :=
  map (fun r => mk_rated r (vaccination_rate_of r)) df.

(** [df['Country/Region'].replace(jhu_to_owid)] *)
Definition rename_countries (df : list metrics_row) : list metrics_row :=
  map (fun m =>
         let r := m_row m in
         mk_metrics
           (mk_jhu (dict_get jhu_to_owid (country r) (country r)) (date r)
              (total_cases r) (total_deaths r) (total_recovered r))
           (new_cases m) (new_deaths m) (death_rate m)) df.

Definition join_owid (m : metrics_row) (o : option rated_row) : panel_row :=
  let r := m_row m in
  match o with
  | Some v =>
      mk_panel (country r) (date r) (total_cases r) (total_deaths r)
        (total_recovered r) (new_cases m) (new_deaths m) (death_rate m)
        (total_vaccinations (r_row v)) (people_fully_vaccinated (r_row v))
        (population (r_row v)) (iso_code (r_row v)) (vaccination_rate v)
  | None =>
      mk_panel (country r) (date r) (total_cases r) (total_deaths r)
        (total_recovered r) (new_cases m) (new_deaths m) (death_rate m)
        None None None None NaN
  end.

Section Cell.
Variables confirmed deaths recovered : list dated_row.
Variable df_owid : list owid_row.
Variable countries : list string.

(** [df_jhu_filtered] as the filter leaves it. *)
Definition df_jhu_selected : list jhu_row :=
  filter_jhu (df_jhu confirmed deaths recovered) (countries_jhu countries).

(** [df_jhu_filtered] filled and sorted: the frame the metrics are
    computed on. *)
Definition df_jhu_sorted : list jhu_row :=
  sort_values jhu_key (fillna_jhu df_jhu_selected).

(** [df_jhu_filtered] with its three derived columns. *)
Definition df_jhu_metrics : list metrics_row := add_metrics df_jhu_sorted.

(** [df_jhu_filtered] at the end of the cell. *)
Definition df_jhu_filtered : list metrics_row :=
  rename_countries df_jhu_metrics.

(** [df_owid_filtered] at the end of the cell. *)
Definition df_owid_filtered : list rated_row :=
  add_vaccination_rate (fillna_owid (filter_owid df_owid countries)).

Definition df_combined : list panel_row :=
  merge_left metrics_key rated_key join_owid df_jhu_filtered df_owid_filtered.
End Cell.

Definition default_banner : string :=
  String (ascii_of_nat 10)
    "Default countries: ['Kenya', 'United States', 'India']".

Definition prompt : string :=
  "Enter countries to analyze (comma-separated, e.g., Kenya,United States,India) or press Enter to use defaults: ".

Record run : Type := mk_run {
  shown : list event;
  outcome : result (list panel_row)
}.

(** One call after another: the warnings add up, and an exception ends
    the sequence. *)
Definition and_next {A B : Type} (m : converted A) (k : A -> converted B)
  : converted B :=
  match snd m with
  | inl e => (fst m, inl e)
  | inr a => (fst m ++ fst (k a), snd (k a))
  end.

Section Run.
Variable to_datetime : list string -> converted (list Z).

(** The reshaper followed by the date conversion of its output. *)
Definition reshape_dated (df : wide_table) (value_name : string)
  : converted (list dated_row) :=
  to_datetime_long to_datetime (long_rows (reshape_jhu df value_name)).

(** The three reshaped frames and the OWID table with their dates
    converted, in the order of the four calls. *)
Definition load (df_confirmed df_deaths df_recovered : wide_table)
  (owid : list owid_raw)
  : converted
      (list dated_row * list dated_row * list dated_row * list owid_row) :=
  and_next (reshape_dated df_confirmed "total_cases") (fun c =>
  and_next (reshape_dated df_deaths "total_deaths") (fun d =>
  and_next (reshape_dated df_recovered "total_recovered") (fun r =>
  and_next (to_datetime_owid to_datetime owid) (fun o =>
  ([], ret (c, d, r, o)))))).

(** The whole cell, from the four loaded tables and the line typed at the
    prompt: what it shows is the warnings of the conversions and, once they
    are through, its banner and its prompt. *)
Definition run_cell (df_confirmed df_deaths df_recovered : wide_table)
  (owid : list owid_raw) (user_input : string) : run :=
  let loaded := load df_confirmed df_deaths df_recovered owid in
  match snd loaded with
  | inl e => mk_run (map Warned (fst loaded)) (inl e)
  | inr (c, d, r, o) =>
      mk_run (map Warned (fst loaded) ++ [Printed default_banner; Prompted prompt])
        (inr (df_combined c d r o (read_countries user_input)))
  end.
End Run.

End Tracker.
Import Tracker.

(** ** A date parser and small tables for the examples *)

Module Sample.

Definition digit (c : ascii) : option Z :=
  let n := nat_of_ascii c in
  if ((48 <=? n) && (n <=? 57))%nat then Some (Z.of_nat (n - 48)) else None.

Fixpoint number_from (acc : Z) (s : string) : option Z :=
  match s with
  | EmptyString => Some acc
  | String c s' =>
      match digit c with
      | Some d => number_from (10 * acc + d) s'
      | None => None
      end
  end.

Definition number (s : string) : option Z :=
  match s with
  | EmptyString => None
  | _ => number_from 0 s
  end.

Definition day_code (y m d : Z) : option Z :=
  if ((1 <=? m) && (m <=? 12) && (1 <=? d) && (d <=? 31))%Z
  then Some (y * 10000 + m * 100 + d) else None.

(** Reads a JHU header (m/d/yy) or an OWID date (yyyy-mm-dd); the timestamp
    is the number yyyymmdd. *)
Definition parse_day (s : string) : option Z :=
  match map number (split "/"%char s) with
  | [Some m; Some d; Some y] => day_code (2000 + y) m d
  | _ =>
      match map number (split "-"%char s) with
      | [Some y; Some m; Some d] => day_code y m d
      | _ => None
      end
  end.

Fixpoint parse_days (col : list string) : result (list Z) :=
  match col with
  | [] => ret []
  | s :: col' =>
      match parse_day s with
      | Some d => ds <- parse_days col' ;; ret (d :: ds)
      | None => inl (DateParseError s)
      end
  end.

(** Whether a string is written with slashes. *)
Definition slashed (s : string) : bool :=
  match split "/"%char s with
  | _ :: _ :: _ => true
  | _ => false
  end.

(** A conversion for the examples, no model of pandas' parser: it reads the
    strings of a column one by one and, the way pandas 2 warns when it can
    infer no format, emits a UserWarning on a column that starts with a
    m/d/yy date. *)
Definition parse_date (col : list string) : converted (list Z) :=
  (match col with
   | s :: _ => if slashed s then ["UserWarning"] else []
   | [] => []
   end,
   parse_days col).

Definition country_row (name : string) : id_cols :=
  mk_id None name None None.

Definition province_row (province name : string) : id_cols :=
  mk_id (Some province) name None None.

(** The rows of a wide table, reshaped and dated; empty when a header does
    not parse. *)
Definition dated (df : wide_table) : list dated_row :=
  match snd (reshape_dated parse_date df "value") with
  | inr rows => rows
  | inl _ => []
  end.

(** Country A over two days: cases 10 then 15, deaths 1 then 2. *)
Definition cases_A : wide_table :=
  mk_wide [country_row "A"] [("1/1/21", [Some 10]); ("1/2/21", [Some 15])].

Definition deaths_A : wide_table :=
  mk_wide [country_row "A"] [("1/1/21", [Some 1]); ("1/2/21", [Some 2])].

(** A recoveries file without rows. *)
Definition recovered_none : wide_table :=
  mk_wide [] [("1/1/21", []); ("1/2/21", [])].

(** A counter revised downwards: 100 cases, then 90. *)
Definition cases_revised : wide_table :=
  mk_wide [country_row "A"] [("1/1/21", [Some 100]); ("1/2/21", [Some 90])].

(** One country reported by two provinces, on one day. *)
Definition by_province : wide_table :=
  mk_wide [province_row "Victoria" "Australia";
           province_row "Tasmania" "Australia"]
    [("1/1/21", [Some 10; Some 20])].

(** The same counts, reported by two other provinces. *)
Definition by_other_provinces : wide_table :=
  mk_wide [province_row "Queensland" "Australia";
           province_row "Western Australia" "Australia"]
    [("1/1/21", [Some 10; Some 20])].

(** A table without date columns, and one whose header is no date but which
    has no rows. *)
Definition no_dates : wide_table := mk_wide [country_row "A"] [].

Definition bad_header_no_rows : wide_table := mk_wide [] [("total", [])].

Definition bad_header : wide_table := mk_wide [country_row "A"] [("total", [Some 1])].

(** OWID records for A: the first day only, with a negative population. *)
Definition owid_A : list owid_row :=
  [mk_owid "A" 20210101 None (Some 50) (Some (-100)) (Some "AAA")].

Definition owid_A_raw : list owid_raw :=
  [mk_owid_raw "A" "2021-01-01" None (Some 50) (Some (-100)) (Some "AAA")].

(** The panel of country A. *)
Definition panel_A : list panel_row :=
  df_combined (dated cases_A) (dated deaths_A) (dated recovered_none)
    owid_A ["A"].

(** The metrics frame of country A when its counter is revised downwards. *)
Definition metrics_revised : list metrics_row :=
  df_jhu_metrics (dated cases_revised) (dated deaths_A) (dated recovered_none)
    ["A"].

Definition blank_metrics : metrics_row :=
  mk_metrics (mk_jhu "" 0 None None None) None None NaN.

Definition revised_day1 : metrics_row := nth 0 metrics_revised blank_metrics.

Definition revised_day2 : metrics_row := nth 1 metrics_revised blank_metrics.

(** The panel of a country that all three files report by province. *)
Definition panel_provinces : list panel_row :=
  df_combined (dated by_province) (dated by_province) (dated by_province)
    [] ["Australia"].

Definition blank_row : panel_row :=
  mk_panel "" 0 None None None None None NaN None None None None NaN.

(** Its rows for the first and the second day. *)
Definition day1_A : panel_row := nth 0 panel_A blank_row.

Definition day2_A : panel_row := nth 1 panel_A blank_row.

End Sample.
Import Sample.

(** ** The cells that read the panel *)

Module Consumers.

(** [df_combined[df_combined['Country/Region'] == country]] *)
Definition country_data (df : list panel_row) (name : string) : list panel_row :=
  filter (fun p => String.eqb (p_country p) name) df.

(** The greatest date so far, and one more date. *)
Definition step (acc : option Z) (d : Z) : option Z :=
  match acc with
  | None => Some d
  | Some m => Some (Z.max m d)
  end.

(** [df['date'].max()]: [None] stands for NaT, the maximum of no date. *)
Definition date_max (dates : list Z) : option Z := fold_left step dates None.

(** [df_combined[df_combined['date'] == df_combined['date'].max()]]; no
    date equals NaT. *)
Definition latest_data (df : list panel_row) : list panel_row :=
  match date_max (map p_date df) with
  | None => []
  | Some m => filter (fun p => Z.eqb (p_date p) m) df
  end.

(** What the report cell can raise: [countries[i]] out of range, and
    [strftime] on NaT. *)
Inductive report_exn : Type :=
| IndexError : report_exn
| ValueError : report_exn.

(** [l[i]] for a literal index that is not negative. *)
Definition index {A : Type} (l : list A) (i : nat) : report_exn + A :=
  match nth_error l i with
  | Some x => inr x
  | None => inl IndexError
  end.

Definition and_then {A B : Type} (m : report_exn + A)
  (k : A -> report_exn + B) : report_exn + B :=
  match m with
  | inl e => inl e
  | inr a => k a
  end.

Definition nl : string := String (ascii_of_nat 10) EmptyString.

(** The number of characters of a string equal to a given one. *)
Fixpoint count_char (c : ascii) (s : string) : nat :=
  match s with
  | EmptyString => O
  | String c' s' => if Ascii.eqb c' c then S (count_char c s') else count_char c s'
  end.

(** The sum of a column, NaN counting for nothing. *)
Definition cell_value (c : cell) : Z :=
  match c with
  | Some z => z
  | None => 0
  end.

(** The daily new cases of one country, added up over the frame of the
    metrics. *)
Definition sum_new_cases (name : string) (df : list metrics_row) : Z :=
  fold_right Z.add 0
    (map (fun m => cell_value (new_cases m))
       (filter (fun m => String.eqb (country (m_row m)) name) df)).

(** The daily new deaths of one country, added up in the same way. *)
Definition sum_new_deaths (name : string) (df : list metrics_row) : Z :=
  fold_right Z.add 0
    (map (fun m => cell_value (new_deaths m))
       (filter (fun m => String.eqb (country (m_row m)) name) df)).

(** The sum of the differences of one group, over a frame and its column of
    differences. *)
Fixpoint sum_in (g : string) (rows : list (string * cell)) (ds : list cell) : Z :=
  match rows, ds with
  | r :: rows', d :: ds' =>
      (if String.eqb (fst r) g then cell_value d else 0) + sum_in g rows' ds'
  | _, _ => 0
  end.

(** The rows of one group. *)
Definition of_group (g : string) (rows : list (string * cell))
  : list (string * cell) :=
  filter (fun r => String.eqb (fst r) g) rows.

(** A string that neither starts nor ends with whitespace. *)
Definition edge_space (l : list ascii) : bool :=
  match l with
  | [] => false
  | c :: _ => is_space c
  end.

Definition trimmed (s : string) : bool :=
  negb (edge_space (list_ascii_of_string s))
  && negb (edge_space (rev (list_ascii_of_string s))).

(** The eight cumulative-side columns of a panel row. *)
Definition jhu_part (p : panel_row) : metrics_row :=
  mk_metrics
    (mk_jhu (p_country p) (p_date p) (p_total_cases p) (p_total_deaths p)
       (p_total_recovered p))
    (p_new_cases p) (p_new_deaths p) (p_death_rate p).

Section Report.
(** [Timestamp.strftime('%Y-%m-%d')] *)
Variable strftime : Z -> string.

(** [df_combined['date'].max().strftime('%Y-%m-%d')] *)
Definition data_up_to (df : list panel_row) : report_exn + string :=
  match date_max (map p_date df) with
  | None => inl ValueError
  | Some m => inr (strftime m)
  end.

(** The f-string of the report cell; its fields are evaluated from left to
    right. *)
Definition insights (df : list panel_row) (countries : list string)
  : report_exn + string :=
  and_then (data_up_to df) (fun upto =>
  let names := String.concat ", " countries in
  and_then (index countries 0) (fun a0 =>
  and_then (index countries 1) (fun a1 =>
  and_then (index countries 2) (fun a2 =>
  and_then (index countries 0) (fun b0 =>
  and_then (index countries 1) (fun b1 =>
  and_then (index countries 1) (fun c1 =>
  inr (String.concat ""
    [nl; "# COVID-19 Global Data Tracker: Key Insights"; nl; nl;
     "Analysis performed on data up to "; upto; " for "; names; "."; nl; nl;
     "1. **Case Trends**: "; a0; " showed slower case growth compared to "; a1;
     ", likely due to population and testing differences."; nl;
     "2. **Vaccination Rollout**: "; a2;
     " achieved significant vaccination coverage by 2022, reflecting strong public health efforts.";
     nl;
     "3. **Death Rates**: "; b0; " had a lower death rate than "; b1;
     ", possibly due to demographics or reporting."; nl;
     "4. **Global Context**: The choropleth map highlights North America and Europe as case hotspots, with ";
     c1; " among the highest."; nl;
     "5. **Data Limitations**: Recovery data is sparse post-2023, and early vaccination data may be incomplete.";
     nl])))))))).
End Report.

End Consumers.
Import Consumers.

(** ** More tables for the examples *)

Module Sample2.

Fixpoint digits (width : nat) (z : Z) : string :=
  match width with
  | O => EmptyString
  | S w =>
      String.append (digits w (z / 10))
        (String (ascii_of_nat (48 + Z.to_nat (z mod 10))) EmptyString)
  end.

(** Writes the timestamp yyyymmdd of [parse_date] as yyyy-mm-dd. *)
Definition show_date (d : Z) : string :=
  String.concat "-" [digits 4 (d / 10000); digits 2 (d / 100 mod 100);
                     digits 2 (d mod 100)].

(** Countries A and B; B stops reporting after the first day. *)
Definition cases_AB : wide_table :=
  mk_wide [country_row "A"; country_row "B"]
    [("1/1/21", [Some 10; Some 4]); ("1/2/21", [Some 15; None])].

Definition deaths_AB : wide_table :=
  mk_wide [country_row "A"; country_row "B"]
    [("1/1/21", [Some 1; Some 0]); ("1/2/21", [Some 2; Some 0])].

(** Recoveries are reported for A on the first day only. *)
Definition recovered_A_day1 : list dated_row :=
  [mk_dated (country_row "A") 20210101 (Some 3)].

(** OWID records of A, both days, population 1000. *)
Definition owid_A2 : list owid_row :=
  [mk_owid "A" 20210101 None (Some 50) (Some 1000) (Some "AAA");
   mk_owid "A" 20210102 (Some 300) (Some 200) (Some 1000) (Some "AAA")].

Definition panel_A2 : list panel_row :=
  df_combined (dated cases_A) (dated deaths_A) recovered_A_day1 owid_A2 ["A"].

Definition metrics_A : list metrics_row :=
  df_jhu_metrics (dated cases_A) (dated deaths_A) recovered_A_day1 ["A"].

(** Country A reported by two provinces over two days, with its deaths
    reported for the country. *)
Definition cases_split : wide_table :=
  mk_wide [province_row "North" "A"; province_row "South" "A"]
    [("1/1/21", [Some 10; Some 20]); ("1/2/21", [Some 11; Some 22])].

Definition metrics_split : list metrics_row :=
  df_jhu_metrics (dated cases_split) (dated deaths_A) [] ["A"].

End Sample2.
Import Sample2.

(** * Properties *)

(** ** The order of the sort *)

Module OrderFacts.

Lemma ltb_lt (a b : string) :
  String.ltb a b = true <-> String_as_OT.lt a b.
Proof.
  unfold String.ltb. rewrite <- String_as_OT.cmp_lt.
  unfold String_as_OT.cmp.
  destruct (String.compare a b); split; intro H; congruence.
Qed.

Lemma ltb_irrefl (a : string) : String.ltb a a = false.
Proof.
  destruct (String.ltb a a) eqn:E; [ | reflexivity ].
  apply ltb_lt in E. exfalso. exact (String_as_OT.lt_not_eq _ _ E eq_refl).
Qed.

Lemma ltb_trans (a b c : string) :
  String.ltb a b = true -> String.ltb b c = true -> String.ltb a c = true.
Proof.
  rewrite !ltb_lt. apply String_as_OT.lt_trans.
Qed.

Lemma ltb_asym (a b : string) :
  String.ltb a b = true -> String.ltb b a = true -> False.
Proof.
  intros H1 H2. pose proof (ltb_trans _ _ _ H1 H2) as H.
  rewrite ltb_irrefl in H. discriminate.
Qed.

Lemma ltb_trichotomy (a b : string) :
  String.ltb a b = true \/ a = b \/ String.ltb b a = true.
Proof.
  destruct (String.compare a b) eqn:E.
  - right. left. now apply String.compare_eq_iff.
  - left. unfold String.ltb. now rewrite E.
  - right. right. unfold String.ltb.
    rewrite String.compare_antisym, E. reflexivity.
Qed.

Lemma key_eqb_eq (k1 k2 : key) : key_eqb k1 k2 = true <-> k1 = k2.
Proof.
  destruct k1 as [c1 d1], k2 as [c2 d2]. unfold key_eqb. simpl.
  rewrite andb_true_iff, String.eqb_eq, Z.eqb_eq.
  split; [ intros [-> ->]; reflexivity | intros H; inversion H; auto ].
Qed.

Lemma key_eqb_refl (k : key) : key_eqb k k = true.
Proof. now apply key_eqb_eq. Qed.

Lemma key_eqb_neq (k1 k2 : key) : key_eqb k1 k2 = false <-> k1 <> k2.
Proof.
  rewrite <- key_eqb_eq. destruct (key_eqb k1 k2); split; congruence.
Qed.

(** The sort order, spelled out. *)
Lemma key_leb_spec (k1 k2 : key) :
  key_leb k1 k2 = true <->
  String.ltb (fst k1) (fst k2) = true \/ (fst k1 = fst k2 /\ snd k1 <= snd k2).
Proof.
  unfold key_leb.
  rewrite orb_true_iff, andb_true_iff, String.eqb_eq, Z.leb_le. tauto.
Qed.

Lemma key_leb_refl (k : key) : key_leb k k = true.
Proof. apply key_leb_spec. right. split; [ reflexivity | lia ]. Qed.

Lemma key_leb_trans (a b c : key) :
  key_leb a b = true -> key_leb b c = true -> key_leb a c = true.
Proof.
  rewrite !key_leb_spec.
  intros [H1 | [E1 L1]] [H2 | [E2 L2]].
  - left. eapply ltb_trans; eauto.
  - left. now rewrite <- E2.
  - left. now rewrite E1.
  - right. split; [ congruence | lia ].
Qed.

Lemma key_leb_total (a b : key) :
  key_leb a b = false -> key_leb b a = true.
Proof.
  intros H. apply key_leb_spec.
  destruct (ltb_trichotomy (fst a) (fst b)) as [L | [E | G]].
  - assert (key_leb a b = true) by (apply key_leb_spec; now left). congruence.
  - right. split; [ congruence | ].
    destruct (Z_le_gt_dec (snd a) (snd b)) as [Hle | Hgt]; [ | lia ].
    assert (key_leb a b = true) by (apply key_leb_spec; now right). congruence.
  - now left.
Qed.

(** Sorted keys keep the countries together. *)
Lemma key_leb_country (a b : key) :
  key_leb a b = true -> key_leb b a = true -> fst a = fst b.
Proof.
  rewrite !key_leb_spec.
  intros [H1 | [E1 _]] [H2 | [E2 _]]; try congruence.
  exfalso. eapply ltb_asym; eauto.
Qed.

End OrderFacts.
Import OrderFacts.

(** ** pandas operations *)

Module FrameFacts.

Section SortFacts.
Context {A : Type}.
Variable kf : A -> key.

Lemma insert_perm (x : A) (l : list A) :
  Permutation (insert kf x l) (x :: l).
Proof.
  induction l as [ | y l IH ]; simpl.
  - apply Permutation_refl.
  - destruct (key_leb (kf x) (kf y)).
    + apply Permutation_refl.
    + eapply perm_trans; [ apply perm_skip, IH | apply perm_swap ].
Qed.

Lemma sort_values_perm (l : list A) : Permutation (sort_values kf l) l.
Proof.
  induction l as [ | x l IH ]; simpl.
  - apply perm_nil.
  - eapply perm_trans; [ apply insert_perm | now apply perm_skip ].
Qed.

Lemma insert_sorted (x : A) (l : list A) :
  StronglySorted (ordered kf) l -> StronglySorted (ordered kf) (insert kf x l).
Proof.
  induction l as [ | y l IH ]; simpl; intros Hs.
  - constructor; [ constructor | constructor ].
  - inversion Hs as [ | ? ? Hl Hy ]; subst.
    destruct (key_leb (kf x) (kf y)) eqn:E.
    + constructor; [ assumption | ].
      constructor; [ exact E | ].
      rewrite Forall_forall in *. intros z Hz.
      unfold ordered. eapply key_leb_trans; [ exact E | now apply Hy ].
    + constructor; [ now apply IH | ].
      rewrite Forall_forall in *. intros z Hz.
      apply (Permutation_in _ (insert_perm x l)) in Hz.
      destruct Hz as [ <- | Hz ].
      * now apply key_leb_total.
      * now apply Hy.
Qed.

Lemma sort_values_sorted (l : list A) :
  StronglySorted (ordered kf) (sort_values kf l).
Proof.
  induction l as [ | x l IH ]; simpl.
  - constructor.
  - now apply insert_sorted.
Qed.
End SortFacts.

Section KeyedRows.
Context {A : Type}.
Variable kf : A -> key.

Lemma rows_at_In (k : key) (l : list A) (x : A) :
  In x (rows_at kf k l) <-> In x l /\ kf x = k.
Proof.
  unfold rows_at. rewrite filter_In, key_eqb_eq.
  split; intros [H1 H2]; split; congruence.
Qed.

(** Distinct keys: at most one row per key. *)
Lemma rows_at_unique (k : key) (l : list A) :
  NoDup (map kf l) -> (length (rows_at kf k l) <= 1)%nat.
Proof.
  induction l as [ | x l IH ]; simpl; intros Hnd; [ lia | ].
  inversion Hnd as [ | ? ? Hx Hl ]; subst.
  destruct (key_eqb k (kf x)) eqn:E; simpl.
  - apply key_eqb_eq in E. subst k.
    destruct (rows_at kf (kf x) l) as [ | y ys ] eqn:Er; simpl; [ lia | ].
    exfalso. apply Hx.
    assert (Hy : In y (rows_at kf (kf x) l)) by (rewrite Er; now left).
    apply rows_at_In in Hy. destruct Hy as [Hy <-]. now apply in_map.
  - now apply IH.
Qed.

Lemma rows_at_present (k : key) (l : list A) :
  In k (map kf l) -> (1 <= length (rows_at kf k l))%nat.
Proof.
  intros H. apply in_map_iff in H. destruct H as [x [Hk Hx]].
  assert (Hin : In x (rows_at kf k l)) by (apply rows_at_In; auto).
  destruct (rows_at kf k l); [ destruct Hin | simpl; lia ].
Qed.

Lemma rows_at_absent (k : key) (l : list A) :
  ~ In k (map kf l) -> rows_at kf k l = [].
Proof.
  intros H. destruct (rows_at kf k l) as [ | x xs ] eqn:E; [ reflexivity | ].
  exfalso. apply H.
  assert (Hin : In x (rows_at kf k l)) by (rewrite E; now left).
  apply rows_at_In in Hin. destruct Hin as [Hin <-]. now apply in_map.
Qed.
End KeyedRows.

Section MergeFacts.
Context {A B C : Type}.
Variable kl : A -> key.
Variable kr : B -> key.
Variable kc : C -> key.

Lemma matches_In (a : A) (r : list B) (b : B) :
  In b (matches kl kr a r) <-> In b r /\ kr b = kl a.
Proof. apply (rows_at_In kr (kl a) r b). Qed.

Lemma merge_inner_In (f : A -> B -> C) (l : list A) (r : list B) (c : C) :
  In c (merge_inner kl kr f l r) <->
  exists a b, In a l /\ In b r /\ kr b = kl a /\ c = f a b.
Proof.
  unfold merge_inner. rewrite in_flat_map. split.
  - intros [a [Ha Hc]]. apply in_map_iff in Hc. destruct Hc as [b [<- Hb]].
    apply matches_In in Hb. destruct Hb as [Hb Hk]. now exists a, b.
  - intros [a [b [Ha [Hb [Hk ->]]]]]. exists a. split; [ assumption | ].
    apply in_map. apply matches_In. auto.
Qed.

(** A row of a left merge is a left row, joined with a matching right row
    or, when it has none, with nothing. *)
Lemma merge_left_In (f : A -> option B -> C) (l : list A) (r : list B) (c : C) :
  In c (merge_left kl kr f l r) <->
  exists a, In a l /\
    ((matches kl kr a r = [] /\ c = f a None) \/
     (exists b, In b r /\ kr b = kl a /\ c = f a (Some b))).
Proof.
  unfold merge_left. rewrite in_flat_map. split.
  - intros [a [Ha Hc]]. exists a. split; [ assumption | ].
    destruct (matches kl kr a r) as [ | b0 bs ] eqn:E.
    + left. destruct Hc as [ <- | [] ]. auto.
    + right. apply in_map_iff in Hc. destruct Hc as [b [<- Hb]].
      rewrite <- E in Hb. apply matches_In in Hb. destruct Hb. now exists b.
  - intros [a [Ha [[E ->] | [b [Hb [Hk ->]]]]]]; exists a; (split; [ assumption | ]).
    + rewrite E. now left.
    + assert (Hm : In b (matches kl kr a r)) by (apply matches_In; auto).
      destruct (matches kl kr a r) as [ | b0 bs ] eqn:E; [ destruct Hm | ].
      now apply (in_map (fun b => f a (Some b))).
Qed.

(** A left merge keeps the keys of its left frame, and only those. *)
Lemma merge_left_keys (f : A -> option B -> C) (l : list A) (r : list B) :
  (forall a o, kc (f a o) = kl a) ->
  forall k, In k (map kc (merge_left kl kr f l r)) <-> In k (map kl l).
Proof.
  intros Hf k. rewrite !in_map_iff. split.
  - intros [c [<- Hc]]. apply merge_left_In in Hc.
    destruct Hc as [a [Ha [[_ ->] | [b [_ [_ ->]]]]]]; exists a; auto.
  - intros [a [<- Ha]].
    destruct (matches kl kr a r) as [ | b0 bs ] eqn:E.
    + exists (f a None). split; [ apply Hf | ].
      apply merge_left_In. exists a. auto.
    + assert (Hb : In b0 (matches kl kr a r)) by (rewrite E; now left).
      apply matches_In in Hb. destruct Hb as [Hb Hk].
      exists (f a (Some b0)). split; [ apply Hf | ].
      apply merge_left_In. exists a. split; [ assumption | ].
      right. now exists b0.
Qed.

(** With distinct right keys a left merge has the very rows of its left
    frame, one for one. *)
Lemma merge_left_keys_exact (f : A -> option B -> C) (l : list A) (r : list B) :
  (forall a o, kc (f a o) = kl a) ->
  NoDup (map kr r) ->
  map kc (merge_left kl kr f l r) = map kl l.
Proof.
  intros Hf Hnd. unfold merge_left.
  induction l as [ | a l IH ]; simpl; [ reflexivity | ].
  rewrite map_app. change (kl a :: map kl l) with ([kl a] ++ map kl l).
  f_equal; [ | exact IH ].
  pose proof (rows_at_unique kr (kl a) r Hnd) as Hle.
  change (rows_at kr (kl a) r) with (matches kl kr a r) in Hle.
  destruct (matches kl kr a r) as [ | b [ | b' bs ] ]; simpl in *.
  - now rewrite Hf.
  - now rewrite Hf.
  - lia.
Qed.

Lemma merge_inner_keys_in (f : A -> B -> C) (l : list A) (r : list B) :
  (forall a b, kc (f a b) = kl a) ->
  forall k, In k (map kc (merge_inner kl kr f l r)) -> In k (map kl l).
Proof.
  intros Hf k H. apply in_map_iff in H. destruct H as [c [<- Hc]].
  apply merge_inner_In in Hc. destruct Hc as [a [b [Ha [_ [_ ->]]]]].
  rewrite Hf. now apply in_map.
Qed.

(** Distinct keys on both sides: distinct keys in the inner merge. *)
Lemma merge_inner_NoDup (f : A -> B -> C) (l : list A) (r : list B) :
  (forall a b, kc (f a b) = kl a) ->
  NoDup (map kl l) -> NoDup (map kr r) ->
  NoDup (map kc (merge_inner kl kr f l r)).
Proof.
  intros Hf Hl Hr.
  induction l as [ | a l IH ]; simpl; [ constructor | ].
  inversion Hl as [ | ? ? Ha Hl' ]; subst.
  unfold merge_inner in *. simpl. rewrite map_app.
  pose proof (rows_at_unique kr (kl a) r Hr) as Hle.
  change (rows_at kr (kl a) r) with (matches kl kr a r) in Hle.
  destruct (matches kl kr a r) as [ | b [ | b' bs ] ]; simpl in *.
  - now apply IH.
  - constructor; [ | now apply IH ].
    rewrite Hf. intros Hin. apply Ha.
    now apply (merge_inner_keys_in f l r Hf).
  - lia.
Qed.
End MergeFacts.

End FrameFacts.
Import FrameFacts.

(** ** The stages of the cell *)

Module CellFacts.

Lemma isin_In (x : string) (l : list string) : isin x l = true <-> In x l.
Proof.
  unfold isin. rewrite existsb_exists. split.
  - intros [y [Hy E]]. apply String.eqb_eq in E. now subst.
  - intros H. exists x. split; [ assumption | apply String.eqb_refl ].
Qed.

(** The alias table, read as a function. *)
Lemma jhu_to_owid_get (c : string) :
  dict_get jhu_to_owid c c = if String.eqb c "US" then "United States" else c.
Proof. reflexivity. Qed.

Lemma jhu_to_owid_not_US (c : string) : dict_get jhu_to_owid c c <> "US".
Proof.
  rewrite jhu_to_owid_get. destruct (String.eqb c "US") eqn:E.
  - discriminate.
  - now apply String.eqb_neq.
Qed.

Lemma jhu_to_owid_fixes (c : string) : c <> "US" -> dict_get jhu_to_owid c c = c.
Proof.
  intros H. rewrite jhu_to_owid_get. apply String.eqb_neq in H. now rewrite H.
Qed.

(** No selection puts the JHU key "US" among the names the JHU frame is
    filtered with. *)
Lemma countries_jhu_not_US (countries : list string) :
  ~ In "US" (countries_jhu countries).
Proof.
  unfold countries_jhu. rewrite in_map_iff. intros [c [H _]].
  exact (jhu_to_owid_not_US c H).
Qed.

Lemma filter_jhu_In (df : list jhu_row) (names : list string) (r : jhu_row) :
  In r (filter_jhu df names) <-> In r df /\ In (country r) names.
Proof. unfold filter_jhu. now rewrite filter_In, isin_In. Qed.

Lemma fillna_jhu_keys (df : list jhu_row) :
  map jhu_key (fillna_jhu df) = map jhu_key df.
Proof. unfold fillna_jhu. rewrite map_map. reflexivity. Qed.

Lemma fillna_jhu_In (df : list jhu_row) (r : jhu_row) :
  In r (fillna_jhu df) ->
  exists r0, In r0 df /\ country r = country r0 /\ date r = date r0 /\
    total_cases r = fillna 0 (total_cases r0) /\
    total_deaths r = fillna 0 (total_deaths r0) /\
    total_recovered r = fillna 0 (total_recovered r0).
Proof.
  unfold fillna_jhu. rewrite in_map_iff. intros [r0 [<- H]].
  exists r0. simpl. auto 10.
Qed.

Lemma fillna_set (v : Z) (c : cell) : exists z, fillna v c = Some z.
Proof. destruct c as [z | ]; simpl; eauto. Qed.

Lemma groupby_diff_length (rows : list (string * cell)) :
  forall last, length (groupby_diff last rows) = length rows.
Proof.
  induction rows as [ | [g v] rows IH ]; simpl; intros last; [ reflexivity | ].
  now rewrite IH.
Qed.

Lemma daily_length (col : jhu_row -> cell) (df : list jhu_row) :
  length (daily col df) = length df.
Proof.
  unfold daily. now rewrite length_map, groupby_diff_length, length_map.
Qed.

Lemma combine_map_fst {X Y : Type} (l : list X) (l' : list Y) :
  length l = length l' -> map fst (combine l l') = l.
Proof.
  revert l'. induction l as [ | x l IH ]; intros [ | y l' ]; simpl;
    intros H; try discriminate; [ reflexivity | ].
  f_equal. apply IH. lia.
Qed.

(** Adding the metrics leaves the rows of the frame as they are. *)
Lemma add_metrics_rows (df : list jhu_row) : map m_row (add_metrics df) = df.
Proof.
  unfold add_metrics. rewrite map_map. simpl.
  change (map (fun x : jhu_row * (cell * cell) => fst x)) with
    (map (@fst jhu_row (cell * cell))).
  apply combine_map_fst.
  rewrite length_combine, !daily_length. lia.
Qed.

Lemma add_metrics_death_rate (df : list jhu_row) (m : metrics_row) :
  In m (add_metrics df) -> death_rate m = death_rate_of (m_row m).
Proof.
  unfold add_metrics. rewrite in_map_iff. intros [x [<- _]]. reflexivity.
Qed.

Section Stages.
Variables confirmed deaths recovered : list dated_row.
Variable owid : list owid_row.
Variable countries : list string.

Lemma selected_not_US (r : jhu_row) :
  In r (df_jhu_selected confirmed deaths recovered countries) ->
  country r <> "US".
Proof.
  unfold df_jhu_selected. rewrite filter_jhu_In. intros [_ H] E.
  rewrite E in H. exact (countries_jhu_not_US countries H).
Qed.

Lemma sorted_perm :
  Permutation (df_jhu_sorted confirmed deaths recovered countries)
    (fillna_jhu (df_jhu_selected confirmed deaths recovered countries)).
Proof. apply sort_values_perm. Qed.

(** A row of the sorted frame is a selected row, filled. *)
Lemma sorted_In (r : jhu_row) :
  In r (df_jhu_sorted confirmed deaths recovered countries) ->
  exists r0, In r0 (df_jhu_selected confirmed deaths recovered countries) /\
    country r = country r0 /\ date r = date r0 /\
    total_cases r = fillna 0 (total_cases r0) /\
    total_deaths r = fillna 0 (total_deaths r0) /\
    total_recovered r = fillna 0 (total_recovered r0).
Proof.
  intros H. apply fillna_jhu_In. exact (Permutation_in _ sorted_perm H).
Qed.

Lemma sorted_keys (k : key) :
  In k (map jhu_key (df_jhu_sorted confirmed deaths recovered countries)) <->
  In k (map jhu_key (df_jhu_selected confirmed deaths recovered countries)).
Proof.
  rewrite <- (fillna_jhu_keys (df_jhu_selected confirmed deaths recovered countries)).
  split; apply Permutation_in; [ | symmetry ];
    apply Permutation_map, sorted_perm.
Qed.

Lemma metrics_rows :
  map m_row (df_jhu_metrics confirmed deaths recovered countries)
  = df_jhu_sorted confirmed deaths recovered countries.
Proof. apply add_metrics_rows. Qed.

Lemma metrics_In (m : metrics_row) :
  In m (df_jhu_metrics confirmed deaths recovered countries) ->
  In (m_row m) (df_jhu_sorted confirmed deaths recovered countries).
Proof. intros H. rewrite <- metrics_rows. now apply in_map. Qed.

(** The renaming finds nothing to rename: the key "US" did not pass the
    filter. *)
Lemma rename_is_identity :
  df_jhu_filtered confirmed deaths recovered countries
  = df_jhu_metrics confirmed deaths recovered countries.
Proof.
  unfold df_jhu_filtered, rename_countries.
  rewrite <- (map_id (df_jhu_metrics confirmed deaths recovered countries)) at 2.
  apply map_ext_in. intros m Hm.
  apply metrics_In, sorted_In in Hm. destruct Hm as [r0 [Hr0 [Ec _]]].
  rewrite jhu_to_owid_fixes.
  - destruct m as [[c d tc td tr] nc nd dr]. reflexivity.
  - rewrite Ec. now apply selected_not_US.
Qed.

Lemma filtered_keys :
  map metrics_key (df_jhu_filtered confirmed deaths recovered countries)
  = map jhu_key (df_jhu_sorted confirmed deaths recovered countries).
Proof.
  rewrite rename_is_identity, <- metrics_rows, map_map. reflexivity.
Qed.

Lemma join_owid_key (m : metrics_row) (o : option rated_row) :
  panel_key (join_owid m o) = metrics_key m.
Proof. destruct o; reflexivity. Qed.

(** A panel row carries the JHU columns of a row of the metrics frame. *)
Lemma combined_In (p : panel_row) :
  In p (df_combined confirmed deaths recovered owid countries) ->
  exists m o, In m (df_jhu_metrics confirmed deaths recovered countries) /\
    p = join_owid m o /\
    match o with
    | Some v => In v (df_owid_filtered owid countries)
    | None => True
    end.
Proof.
  unfold df_combined. rewrite rename_is_identity, merge_left_In.
  intros [m [Hm [[_ ->] | [v [Hv [_ ->]]]]]].
  - exists m, None. auto.
  - exists m, (Some v). auto.
Qed.
(** The pairs of the panel are those of the filtered cumulative frame. *)
Lemma combined_keys (k : key) :
  In k (map panel_key (df_combined confirmed deaths recovered owid countries))
  <-> In k (map jhu_key (df_jhu_selected confirmed deaths recovered countries)).
Proof.
  unfold df_combined.
  rewrite (merge_left_keys metrics_key rated_key panel_key);
    [ | apply join_owid_key ].
  rewrite filtered_keys. apply sorted_keys.
Qed.
(** The country of a panel row is the country of a row of the cases
    file, and one of the names the cumulative frame was filtered with. *)
Lemma combined_country (p : panel_row) :
  In p (df_combined confirmed deaths recovered owid countries) ->
  In (p_country p) (countries_jhu countries)
  /\ exists r, In r confirmed /\ p_country p = Country_Region (d_id r).
Proof.
  intros Hp. apply combined_In in Hp. destruct Hp as [m [o [Hm [-> _]]]].
  apply metrics_In, sorted_In in Hm. destruct Hm as [r0 [Hr0 [Ec _]]].
  assert (E : p_country (join_owid m o) = country r0)
    by (destruct o; exact Ec).
  rewrite E. clear E Ec.
  unfold df_jhu_selected in Hr0. apply filter_jhu_In in Hr0.
  destruct Hr0 as [Hr0 Hsel]. split; [ exact Hsel | ].
  unfold df_jhu in Hr0. apply merge_left_In in Hr0.
  assert (Hcd : exists cd,
             In cd (merge_inner series_key series_key join_deaths
                      (select confirmed) (select deaths))
             /\ country r0 = cd_country cd).
  { destruct Hr0 as [cd [Hcd [[_ ->] | [b [_ [_ ->]]]]]]; exists cd; auto. }
  destruct Hcd as [cd [Hcd ->]].
  apply merge_inner_In in Hcd. destruct Hcd as [c [d [Hc [_ [_ ->]]]]].
  unfold select in Hc. apply in_map_iff in Hc. destruct Hc as [r [<- Hr]].
  exists r. auto.
Qed.
End Stages.

Lemma filter_none {X : Type} (f : X -> bool) (l : list X) :
  (forall x, In x l -> f x = false) -> filter f l = [].
Proof.
  induction l as [ | x l IH ]; simpl; intros H; [ reflexivity | ].
  rewrite (H x (or_introl eq_refl)). apply IH. intros y Hy. apply H. now right.
Qed.

End CellFacts.
Import CellFacts.

(** ** The claims *)

(** C1.  Whatever the sources and the selection, the (country, date) pairs
    of the final panel [df_combined] are exactly those of the filtered
    cumulative frame, both as the filter leaves it and as it stands when the
    OWID table is joined: the left merge drops no cumulative pair and adds
    no pair that only the rate source has. *)
Theorem panel_keys_are_filtered_keys :
  forall (confirmed deaths recovered : list dated_row) (owid : list owid_row)
    (countries : list string) (k : key),
    (In k (map panel_key (df_combined confirmed deaths recovered owid countries))
     <-> In k (map jhu_key (df_jhu_selected confirmed deaths recovered countries)))
    /\
    (In k (map panel_key (df_combined confirmed deaths recovered owid countries))
     <-> In k (map metrics_key (df_jhu_filtered confirmed deaths recovered countries))).
Proof.
  intros confirmed deaths recovered owid countries k. split.
  - apply combined_keys.
  - unfold df_combined. apply merge_left_keys. apply join_owid_key.
Qed.

(** C9.  For every selection, the rows of the cumulative frame keyed "US"
    never pass the filter, since the names it is filtered with have been
    translated to the rate-source vocabulary; the panel has no row for
    "US", and none for "United States" either unless the cumulative source
    itself uses that name. *)
Theorem us_never_selected :
  forall (confirmed deaths recovered : list dated_row) (owid : list owid_row)
    (countries : list string),
    filter (fun r => String.eqb (country r) "US")
      (df_jhu_selected confirmed deaths recovered countries) = []
    /\ filter (fun p => String.eqb (p_country p) "US")
         (df_combined confirmed deaths recovered owid countries) = []
    /\ ((forall r, In r confirmed -> Country_Region (d_id r) <> "United States") ->
        filter (fun p => String.eqb (p_country p) "United States")
          (df_combined confirmed deaths recovered owid countries) = []).
Proof.
  intros confirmed deaths recovered owid countries.
  split; [ | split ].
  - apply filter_none. intros r Hr. apply String.eqb_neq.
    now apply (selected_not_US confirmed deaths recovered countries).
  - apply filter_none. intros p Hp. apply String.eqb_neq.
    apply combined_country in Hp. destruct Hp as [Hp _]. intros E.
    rewrite E in Hp. exact (countries_jhu_not_US countries Hp).
  - intros Hsrc. apply filter_none. intros p Hp. apply String.eqb_neq.
    apply combined_country in Hp. destruct Hp as [_ [r [Hr ->]]].
    now apply Hsrc.
Qed.

(** The hypothesis on the source holds for a JHU table keyed "US". *)
Lemma us_never_selected_witness :
  filter (fun p => String.eqb (p_country p) "United States")
    (df_combined
       (dated (mk_wide [country_row "US"] [("1/1/21", [Some 7])]))
       (dated (mk_wide [country_row "US"] [("1/1/21", [Some 1])]))
       [] [] ["US"; "United States"]) = [].
Proof.
  apply (us_never_selected
           (dated (mk_wide [country_row "US"] [("1/1/21", [Some 7])]))
           (dated (mk_wide [country_row "US"] [("1/1/21", [Some 1])]))
           [] [] ["US"; "United States"]).
  vm_compute. intros r [<- | []]. simpl. discriminate.
Defined.

Module RateFacts.

Lemma Qred_inject_Z (z : Z) : Qred (inject_Z z) = inject_Z z.
Proof.
  unfold Qred, inject_Z.
  pose proof (Z.ggcd_gcd z 1) as Hg.
  pose proof (Z.ggcd_correct_divisors z 1) as Hd.
  destruct (Z.ggcd z 1) as [g [a b]]. simpl in Hg.
  rewrite Z.gcd_1_r in Hg. subst g. destruct Hd as [Ha Hb].
  rewrite Z.mul_1_l in Ha, Hb. subst a. subst b. reflexivity.
Qed.

Lemma Qred_over_one (z : Z) : Qred (inject_Z z / inject_Z 1) = inject_Z z.
Proof.
  rewrite <- (Qred_inject_Z z) at 2. apply Qred_complete.
  unfold Qdiv, Qinv, Qmult, inject_Z, Qeq. simpl. lia.
Qed.

Lemma Qzerob_inject_Z (z : Z) : Qzerob (inject_Z z) = Z.eqb z 0.
Proof. reflexivity. Qed.

Lemma Qposb_inject_Z (z : Z) : Qposb (inject_Z z) = Z.ltb 0 z.
Proof. reflexivity. Qed.

(** The death rate of a row whose two counts are set. *)
Lemma death_rate_of_set (r : jhu_row) (c d : Z) :
  total_cases r = Some c -> total_deaths r = Some d ->
  death_rate_of r
  = Fin (if Z.eqb c 0 then inject_Z d else Qred (inject_Z d / inject_Z c)).
Proof.
  intros Hc Hd. unfold death_rate_of. rewrite Hc, Hd.
  unfold replace. destruct (Z.eqb c 0) eqn:E; unfold of_cell, fdiv;
    rewrite Qzerob_inject_Z.
  - change (Z.eqb 1 0) with false. cbv iota. now rewrite Qred_over_one.
  - rewrite E. reflexivity.
Qed.

(** The vaccination rate of a record, by cases on its population. *)
Lemma vaccination_rate_of_cases (r : owid_row) (v : Z) :
  people_fully_vaccinated r = Some v ->
  vaccination_rate_of r =
  match population r with
  | None => NaN
  | Some n =>
      if Z.eqb n 0 then
        (if Z.eqb v 0 then NaN else inf_of_sign (Z.ltb 0 v))
      else Fin (Qred (inject_Z v / inject_Z n * inject_Z 100))
  end.
Proof.
  intros Hv. unfold vaccination_rate_of. rewrite Hv.
  destruct (population r) as [n | ]; [ | reflexivity ].
  unfold of_cell, fdiv. rewrite !Qzerob_inject_Z, Qposb_inject_Z.
  destruct (Z.eqb n 0).
  2:{ unfold fmul. f_equal. apply Qred_complete.
      now rewrite Qred_correct. }
  destruct (Z.eqb v 0); [ reflexivity | ].
  destruct (Z.ltb 0 v); reflexivity.
Qed.

End RateFacts.
Import RateFacts.

Section FilledPanel.
Variables confirmed deaths recovered : list dated_row.
Variable owid : list owid_row.
Variable countries : list string.

(** After the first fill pass no cumulative count of the frame is unset. *)
Lemma sorted_counts_set (r : jhu_row) :
  In r (df_jhu_sorted confirmed deaths recovered countries) ->
  exists c d v,
    total_cases r = Some c /\ total_deaths r = Some d
    /\ total_recovered r = Some v.
Proof.
  intros H. apply sorted_In in H.
  destruct H as [r0 [_ [_ [_ [Hc [Hd Hr]]]]]].
  destruct (fillna_set 0 (total_cases r0)) as [c Ec].
  destruct (fillna_set 0 (total_deaths r0)) as [d Ed].
  destruct (fillna_set 0 (total_recovered r0)) as [v Ev].
  exists c, d, v. repeat split; congruence.
Qed.

(** The cumulative counts of a panel row are never unset. *)
Lemma panel_counts_set (p : panel_row) :
  In p (df_combined confirmed deaths recovered owid countries) ->
  exists c d v,
    p_total_cases p = Some c /\ p_total_deaths p = Some d
    /\ p_total_recovered p = Some v.
Proof.
  intros H. apply combined_In in H. destruct H as [m [o [Hm [-> _]]]].
  apply metrics_In, sorted_counts_set in Hm.
  destruct o; exact Hm.
Qed.

(** A record of the rate frame, once the cell is done with it. *)
Lemma owid_filtered_In (v : rated_row) :
  In v (df_owid_filtered owid countries) ->
  exists r0, In r0 owid /\
    population (r_row v) = population r0 /\
    total_vaccinations (r_row v) = fillna 0 (total_vaccinations r0) /\
    people_fully_vaccinated (r_row v) = fillna 0 (people_fully_vaccinated r0) /\
    vaccination_rate v = vaccination_rate_of (r_row v).
Proof.
  unfold df_owid_filtered, add_vaccination_rate, fillna_owid, filter_owid.
  rewrite map_map, in_map_iff. intros [r0 [<- H]].
  apply filter_In in H. destruct H as [H _].
  exists r0. simpl. auto.
Qed.
End FilledPanel.

(** C3.  In every row of the panel both cumulative counts are set, and
    [death_rate] is the finite number total_deaths / total_cases when
    total_cases is not zero and total_deaths itself when it is: the quotient
    is never NaN and never an infinity. *)
Theorem death_rate_defined :
  forall (confirmed deaths recovered : list dated_row) (owid : list owid_row)
    (countries : list string) (p : panel_row),
    In p (df_combined confirmed deaths recovered owid countries) ->
    exists c d : Z,
      p_total_cases p = Some c /\ p_total_deaths p = Some d /\
      p_death_rate p
      = Fin (if Z.eqb c 0 then inject_Z d else Qred (inject_Z d / inject_Z c)).
Proof.
  intros confirmed deaths recovered owid countries p Hp.
  apply combined_In in Hp. destruct Hp as [m [o [Hm [-> _]]]].
  pose proof (add_metrics_death_rate _ _ Hm) as Hrate.
  apply metrics_In in Hm.
  destruct (sorted_counts_set _ _ _ _ _ Hm) as [c [d [_ [Hc [Hd _]]]]].
  exists c, d.
  assert (E : p_death_rate (join_owid m o) = death_rate m)
    by (destruct o; reflexivity).
  rewrite E, Hrate.
  repeat split; try (destruct o; assumption).
  now apply death_rate_of_set.
Qed.

(** The second day of country A: 2 deaths for 15 cases. *)
Lemma death_rate_defined_witness :
  In day2_A panel_A /\
  exists c d : Z,
    p_total_cases day2_A = Some c /\ p_total_deaths day2_A = Some d /\
    p_death_rate day2_A
    = Fin (if Z.eqb c 0 then inject_Z d else Qred (inject_Z d / inject_Z c)).
Proof.
  assert (Hin : In day2_A panel_A) by (vm_compute; right; left; reflexivity).
  split; [ exact Hin | ].
  exact (death_rate_defined (dated cases_A) (dated deaths_A)
           (dated recovered_none) owid_A ["A"] day2_A Hin).
Defined.

(** C4, the rate-source half, evaluated: country A has an OWID record for
    its first day only.  The fill pass ran on the OWID frame before the left
    merge, so the row of the second day leaves the cell with both
    vaccination fields unset, while the record of the first day has its
    missing total filled with zero. *)
Example vaccinations_unset_without_match :
  outcome (run_cell parse_date cases_A deaths_A recovered_none owid_A_raw "A")
  = inr panel_A
  /\ map (fun p => (p_date p, p_total_vaccinations p, p_people_fully_vaccinated p))
       panel_A
     = [(20210101, Some 0, Some 50); (20210102, None, None)].
Proof. split; vm_compute; reflexivity. Qed.

(** The two halves of C4 that the cell does keep: no cumulative count of
    the panel is unset, and the population of a panel row is the one its
    OWID record carries, never a filled-in zero. *)
Lemma panel_fill_policy :
  forall (confirmed deaths recovered : list dated_row) (owid : list owid_row)
    (countries : list string) (p : panel_row),
    In p (df_combined confirmed deaths recovered owid countries) ->
    (exists c d v, p_total_cases p = Some c /\ p_total_deaths p = Some d
                   /\ p_total_recovered p = Some v)
    /\ (p_population p = None
        \/ exists r0, In r0 owid /\ p_population p = population r0).
Proof.
  intros confirmed deaths recovered owid countries p Hp.
  split; [ now apply (panel_counts_set confirmed deaths recovered owid countries) | ].
  apply combined_In in Hp. destruct Hp as [m [[v | ] [_ [-> Hv]]]].
  - right. apply owid_filtered_In in Hv. destruct Hv as [r0 [Hr0 [Hp _]]].
    exists r0. split; [ assumption | exact Hp ].
  - left. reflexivity.
Qed.

(** C5, as the cell computes it.  In every row of the panel: with no
    population (none recorded, or no OWID record for the pair)
    [vaccination_rate] is unset; with a population other than zero, negative
    ones included, it is people_fully_vaccinated / population * 100; with a
    population of zero it is what float division gives, an infinity of the
    sign of the numerator, or NaN for 0 / 0. *)
Theorem vaccination_rate_by_population :
  forall (confirmed deaths recovered : list dated_row) (owid : list owid_row)
    (countries : list string) (p : panel_row),
    In p (df_combined confirmed deaths recovered owid countries) ->
    match p_population p with
    | None => p_vaccination_rate p = NaN
    | Some n =>
        exists v : Z,
          p_people_fully_vaccinated p = Some v /\
          p_vaccination_rate p =
          if Z.eqb n 0 then
            (if Z.eqb v 0 then NaN else inf_of_sign (Z.ltb 0 v))
          else Fin (Qred (inject_Z v / inject_Z n * inject_Z 100))
    end.
Proof.
  intros confirmed deaths recovered owid countries p Hp.
  apply combined_In in Hp. destruct Hp as [m [[v | ] [_ [-> Hv]]]]; simpl.
  - apply owid_filtered_In in Hv.
    destruct Hv as [r0 [_ [_ [_ [Hf Hrate]]]]].
    destruct (fillna_set 0 (people_fully_vaccinated r0)) as [z Ez].
    rewrite Ez in Hf.
    pose proof (vaccination_rate_of_cases (r_row v) z Hf) as Hcases.
    rewrite <- Hrate in Hcases.
    destruct (population (r_row v)) as [n | ].
    + exists z. split; assumption.
    + assumption.
  - reflexivity.
Qed.

(** The first day of country A, with its population of -100. *)
Lemma vaccination_rate_by_population_witness :
  In day1_A panel_A /\
  match p_population day1_A with
  | None => p_vaccination_rate day1_A = NaN
  | Some n =>
      exists v : Z,
        p_people_fully_vaccinated day1_A = Some v /\
        p_vaccination_rate day1_A =
        if Z.eqb n 0 then
          (if Z.eqb v 0 then NaN else inf_of_sign (Z.ltb 0 v))
        else Fin (Qred (inject_Z v / inject_Z n * inject_Z 100))
  end.
Proof.
  assert (Hin : In day1_A panel_A) by (vm_compute; left; reflexivity).
  split; [ exact Hin | ].
  exact (vaccination_rate_by_population (dated cases_A) (dated deaths_A)
           (dated recovered_none) owid_A ["A"] day1_A Hin).
Defined.

(** C5 as stated fails: the first day of country A has the non-positive
    population -100, and its [vaccination_rate] is the number -50. *)
Lemma negative_population_gives_a_rate :
  ~ (forall p : panel_row,
       In p panel_A ->
       (p_population p = None \/ exists n, p_population p = Some n /\ n <= 0) ->
       p_vaccination_rate p = NaN).
Proof.
  intros H. specialize (H day1_A).
  assert (Hin : In day1_A panel_A) by (vm_compute; left; reflexivity).
  assert (Hpop : p_population day1_A = None
                 \/ exists n, p_population day1_A = Some n /\ n <= 0).
  { right. exists (-100). split; [ vm_compute; reflexivity | lia ]. }
  specialize (H Hin Hpop). vm_compute in H. discriminate.
Qed.

(** ** Daily differences on a sorted frame *)

Module DiffFacts.

Lemma group_le_trans_lt (a b c : string) :
  String.ltb a b = true -> group_le b c -> String.ltb a c = true.
Proof.
  intros H [H' | <-]; [ eapply ltb_trans; eauto | assumption ].
Qed.

(** On a frame sorted by group, the grouped difference is the difference
    with the row just above, taken when that row is of the same group. *)
Lemma groupby_diff_adjacent (rows : list (string * cell)) :
  forall last prev,
    tracks last prev ->
    after prev (map fst rows) ->
    StronglySorted group_le (map fst rows) ->
    groupby_diff last rows = adjacent_diff prev rows.
Proof.
  induction rows as [ | [g v] rows IH ]; intros last prev Ht Ha Hs;
    [ reflexivity | ].
  simpl in *. inversion Hs as [ | ? ? Hs' Hg ]; subst.
  f_equal.
  - destruct prev as [[g0 v0] | ]; simpl in *.
    + destruct Ht as [Hl0 Hlt]. inversion Ha as [ | ? ? Hle _ ]; subst.
      destruct (String.eqb g0 g) eqn:E.
      * apply String.eqb_eq in E. subst g0. now rewrite Hl0.
      * apply String.eqb_neq in E.
        destruct (last g) as [x | ] eqn:El; [ | reflexivity ].
        exfalso. assert (Hlt' : String.ltb g g0 = true)
          by (apply (Hlt g x El); congruence).
        destruct Hle as [Hle | Hle]; [ | congruence ].
        exact (ltb_asym _ _ Hlt' Hle).
    + now rewrite Ht.
  - apply IH; [ | exact Hg | exact Hs' ].
    simpl. rewrite String.eqb_refl. split; [ reflexivity | ].
    intros g' x Hx Hne.
    destruct (String.eqb g' g) eqn:E;
      [ apply String.eqb_eq in E; contradiction | ].
    destruct prev as [[g0 v0] | ]; simpl in *.
    + destruct Ht as [Hl0 Hlt]. inversion Ha as [ | ? ? Hle _ ]; subst.
      destruct (string_dec g' g0) as [-> | Hne0].
      * destruct Hle as [Hle | Hle]; [ assumption | congruence ].
      * eapply group_le_trans_lt; [ | exact Hle ]. now apply (Hlt g' x).
    + rewrite Ht in Hx. discriminate.
Qed.

Lemma adjacent_diff_nth (rows : list (string * cell)) :
  forall prev i g v,
    nth_error rows i = Some (g, v) ->
    nth_error (adjacent_diff prev rows) i
    = Some (match match i with
                  | O => prev
                  | S j => nth_error rows j
                  end with
            | Some (g0, v0) => if String.eqb g0 g then cell_sub v v0 else None
            | None => None
            end).
Proof.
  induction rows as [ | [g1 v1] rows IH ]; intros prev i g v H.
  - destruct i; discriminate.
  - destruct i as [ | j ]; simpl in *.
    + inversion H; subst. reflexivity.
    + rewrite (IH (Some (g1, v1)) j g v H). destruct j; reflexivity.
Qed.

Lemma nth_error_combine {X Y : Type} (l : list X) (l' : list Y) :
  forall i x y,
    nth_error (combine l l') i = Some (x, y) ->
    nth_error l i = Some x /\ nth_error l' i = Some y.
Proof.
  revert l'. induction l as [ | a l IH ]; intros [ | b l' ] [ | i ] x y H;
    simpl in *; try discriminate.
  - inversion H; subst. auto.
  - now apply IH.
Qed.

Lemma StronglySorted_nth {X : Type} (R : X -> X -> Prop) (l : list X) :
  StronglySorted R l ->
  forall j i a b,
    (j < i)%nat -> nth_error l j = Some a -> nth_error l i = Some b -> R a b.
Proof.
  induction 1 as [ | x l Hs IH Hx ]; intros j i a b Hji Ha Hb.
  - destruct j; discriminate.
  - destruct i as [ | i ]; [ lia | ]. simpl in Hb.
    destruct j as [ | j ]; simpl in Ha.
    + inversion Ha; subst. rewrite Forall_forall in Hx.
      apply Hx. eapply nth_error_In; eauto.
    + apply (IH j i); auto. lia.
Qed.

Lemma StronglySorted_map {X Y : Type} (f : X -> Y) (R : X -> X -> Prop)
  (R' : Y -> Y -> Prop) (l : list X) :
  (forall a b, R a b -> R' (f a) (f b)) ->
  StronglySorted R l -> StronglySorted R' (map f l).
Proof.
  intros HR. induction 1 as [ | x l Hs IH Hx ]; simpl; constructor.
  - assumption.
  - rewrite Forall_forall in *. intros y Hy. apply in_map_iff in Hy.
    destruct Hy as [z [<- Hz]]. apply HR. now apply Hx.
Qed.

Lemma ordered_group_le (a b : jhu_row) :
  ordered jhu_key a b -> group_le (country a) (country b).
Proof.
  unfold ordered. rewrite key_leb_spec. simpl.
  intros [H | [H _]]; [ now left | now right ].
Qed.

(** A key between two keys of one country is of that country. *)
Lemma key_between (a b c : key) :
  key_leb a b = true -> key_leb b c = true -> fst a = fst c -> fst b = fst c.
Proof.
  rewrite !key_leb_spec. intros [H1 | [E1 _]] [H2 | [E2 _]] E; try congruence.
  exfalso. rewrite <- E in H2. exact (ltb_asym _ _ H1 H2).
Qed.

(** The daily column of a sorted frame, row by row. *)
Lemma daily_sorted_nth (col : jhu_row -> cell) (df : list jhu_row) :
  StronglySorted (ordered jhu_key) df ->
  forall i r,
    nth_error df i = Some r ->
    nth_error (daily col df) i
    = Some (fillna 0
              (match match i with
                     | O => None
                     | S j => nth_error df j
                     end with
               | Some q =>
                   if String.eqb (country q) (country r)
                   then cell_sub (col r) (col q) else None
               | None => None
               end)).
Proof.
  intros Hs i r Hr. unfold daily.
  rewrite (groupby_diff_adjacent _ (fun _ => None) None).
  - rewrite nth_error_map.
    rewrite (adjacent_diff_nth _ None i (country r) (col r)).
    + simpl. f_equal. f_equal. destruct i as [ | j ]; [ reflexivity | ].
      rewrite nth_error_map. destruct (nth_error df j); reflexivity.
    + rewrite nth_error_map, Hr. reflexivity.
  - intros g. reflexivity.
  - exact I.
  - rewrite map_map. simpl.
    apply (StronglySorted_map country (ordered jhu_key) group_le).
    + apply ordered_group_le.
    + exact Hs.
Qed.

(** A row of the frame with its metrics, by position. *)
Lemma add_metrics_nth (df : list jhu_row) (i : nat) (m : metrics_row) :
  nth_error (add_metrics df) i = Some m ->
  nth_error df i = Some (m_row m)
  /\ nth_error (daily total_cases df) i = Some (new_cases m)
  /\ nth_error (daily total_deaths df) i = Some (new_deaths m).
Proof.
  unfold add_metrics. rewrite nth_error_map.
  destruct (nth_error (combine df
              (combine (daily total_cases df) (daily total_deaths df))) i)
    as [[r [nc nd]] | ] eqn:E; simpl; [ | discriminate ].
  intros H. inversion H; subst. simpl.
  apply nth_error_combine in E. destruct E as [Hr E].
  apply nth_error_combine in E. tauto.
Qed.

End DiffFacts.
Import DiffFacts.

Lemma StronglySorted_unmap {X Y : Type} (f : X -> Y) (R : Y -> Y -> Prop)
  (l : list X) :
  StronglySorted R (map f l) -> StronglySorted (fun a b => R (f a) (f b)) l.
Proof.
  induction l as [ | x l IH ]; simpl; intros H; [ constructor | ].
  inversion H as [ | ? ? Hs Hx ]; subst. constructor; [ now apply IH | ].
  rewrite Forall_forall in *. intros y Hy. apply Hx. now apply in_map.
Qed.

Lemma metrics_sorted (confirmed deaths recovered : list dated_row)
  (countries : list string) :
  StronglySorted (ordered metrics_key)
    (df_jhu_metrics confirmed deaths recovered countries).
Proof.
  apply (StronglySorted_unmap m_row (ordered jhu_key)).
  rewrite metrics_rows. apply sort_values_sorted.
Qed.

(** The daily metrics, row by row.  The frame the metrics are computed on
    is sorted by country, then date.  In it every row has its two cumulative
    counts set; a row that is the first of its country has
    new_cases = new_deaths = 0; any other row
    stands just below a row of the same country and of an earlier or equal
    date, and its new_cases (new_deaths) is its total_cases (total_deaths)
    minus that of the row above, as an integer: a negative difference is
    kept as it is. *)
Theorem daily_deltas :
  forall (confirmed deaths recovered : list dated_row) (countries : list string)
    (i : nat) (m : metrics_row),
    nth_error (df_jhu_metrics confirmed deaths recovered countries) i = Some m ->
    StronglySorted (ordered metrics_key)
      (df_jhu_metrics confirmed deaths recovered countries)
    /\ exists c d : Z,
      total_cases (m_row m) = Some c /\ total_deaths (m_row m) = Some d /\
      ((forall j q,
           (j < i)%nat ->
           nth_error (df_jhu_metrics confirmed deaths recovered countries) j
           = Some q ->
           country (m_row q) <> country (m_row m)) ->
       new_cases m = Some 0 /\ new_deaths m = Some 0)
      /\
      ((exists j q,
           (j < i)%nat /\
           nth_error (df_jhu_metrics confirmed deaths recovered countries) j
           = Some q /\
           country (m_row q) = country (m_row m)) ->
       exists (q : metrics_row) (c' d' : Z),
         (0 < i)%nat /\
         nth_error (df_jhu_metrics confirmed deaths recovered countries) (pred i)
         = Some q /\
         country (m_row q) = country (m_row m) /\
         date (m_row q) <= date (m_row m) /\
         total_cases (m_row q) = Some c' /\ total_deaths (m_row q) = Some d' /\
         new_cases m = Some (c - c') /\ new_deaths m = Some (d - d')).
Proof.
  intros confirmed deaths recovered countries i m Hm.
  pose proof (metrics_sorted confirmed deaths recovered countries) as HsM.
  split; [ exact HsM | ].
  set (M := df_jhu_metrics confirmed deaths recovered countries) in *.
  set (F := df_jhu_sorted confirmed deaths recovered countries).
  assert (HsF : StronglySorted (ordered jhu_key) F) by apply sort_values_sorted.
  assert (Hnth : forall k x, nth_error M k = Some x ->
             nth_error F k = Some (m_row x)
             /\ nth_error (daily total_cases F) k = Some (new_cases x)
             /\ nth_error (daily total_deaths F) k = Some (new_deaths x))
    by (intros k x; apply add_metrics_nth).
  assert (Hset : forall k x, nth_error M k = Some x ->
             exists c d, total_cases (m_row x) = Some c
                         /\ total_deaths (m_row x) = Some d).
  { intros k x Hx. apply Hnth in Hx. destruct Hx as [Hx _].
    apply nth_error_In in Hx.
    destruct (sorted_counts_set _ _ _ _ _ Hx) as [c [d [_ [Hc [Hd _]]]]].
    now exists c, d. }
  destruct (Hset i m Hm) as [c [d [Hc Hd]]]. exists c, d.
  split; [ exact Hc | ]. split; [ exact Hd | ].
  destruct (Hnth i m Hm) as [Hr [Hnc Hnd]].
  rewrite (daily_sorted_nth total_cases F HsF i (m_row m) Hr) in Hnc.
  rewrite (daily_sorted_nth total_deaths F HsF i (m_row m) Hr) in Hnd.
  destruct i as [ | j ].
  - simpl in Hnc, Hnd. injection Hnc as Enc. injection Hnd as Edn. split.
    + intros _. split; symmetry; assumption.
    + intros [j [q [Hj _]]]. lia.
  - destruct (nth_error M j) as [q | ] eqn:Eq.
    2:{ exfalso. apply nth_error_None in Eq.
        assert (nth_error M (S j) <> None) by congruence.
        apply nth_error_Some in H. lia. }
    destruct (Hnth j q Eq) as [Hq _]. rewrite Hq in Hnc, Hnd.
    destruct (Hset j q Eq) as [c' [d' [Hc' Hd']]].
    rewrite Hc, Hc' in Hnc. rewrite Hd, Hd' in Hnd.
    destruct (String.eqb (country (m_row q)) (country (m_row m))) eqn:E.
    + apply String.eqb_eq in E. simpl in Hnc, Hnd.
      injection Hnc as Enc. injection Hnd as Edn. split.
      * intros Hfirst. exfalso. apply (Hfirst j q); [ lia | exact Eq | exact E ].
      * intros _. exists q, c', d'.
        split; [ lia | ]. split; [ exact Eq | ]. split; [ exact E | ].
        split; [ | repeat split; auto ].
        assert (Ho : ordered metrics_key q m)
          by (apply (StronglySorted_nth _ M HsM j (S j)); auto).
        unfold ordered in Ho. apply key_leb_spec in Ho.
        destruct Ho as [Ho | [_ Ho]]; [ | exact Ho ].
        simpl in Ho. rewrite E, ltb_irrefl in Ho. discriminate.
    + apply String.eqb_neq in E. simpl in Hnc, Hnd.
      injection Hnc as Enc. injection Hnd as Edn. split.
      * intros _. split; symmetry; assumption.
      * intros [j0 [q0 [Hj0 [Hq0 E0]]]]. exfalso. apply E.
        destruct (Nat.eq_dec j0 j) as [-> | Hne]; [ congruence | ].
        assert (H1 : ordered metrics_key q0 q)
          by (apply (StronglySorted_nth _ M HsM j0 j); auto; lia).
        assert (H2 : ordered metrics_key q m)
          by (apply (StronglySorted_nth _ M HsM j (S j)); auto).
        exact (key_between _ _ _ H1 H2 E0).
Qed.

(** Country A revised from 100 cases to 90: the second day is not the
    first row of A, and its new_cases is -10. *)
Lemma daily_deltas_witness :
  nth_error metrics_revised 1 = Some revised_day2
  /\ new_cases revised_day2 = Some (-10)
  /\ new_deaths revised_day2 = Some 1.
Proof.
  assert (H2 : nth_error metrics_revised 1 = Some revised_day2)
    by (vm_compute; reflexivity).
  split; [ exact H2 | ].
  destruct (daily_deltas (dated cases_revised) (dated deaths_A)
              (dated recovered_none) ["A"] 1%nat revised_day2 H2)
    as [_ [c [d [Hc [Hd [_ Hrest]]]]]].
  destruct Hrest as [q [c' [d' [_ [Hq [_ [_ [Hc' [Hd' [Hnc Hnd]]]]]]]]]].
  - exists 0%nat, revised_day1. split; [ lia | ].
    split; vm_compute; reflexivity.
  - assert (Eq : q = revised_day1).
    { change (nth_error metrics_revised 0 = Some q) in Hq.
      assert (H1 : nth_error metrics_revised 0 = Some revised_day1)
        by (vm_compute; reflexivity).
      congruence. }
    subst q.
    assert (c = 90) by (vm_compute in Hc; congruence).
    assert (d = 2) by (vm_compute in Hd; congruence).
    assert (c' = 100) by (vm_compute in Hc'; congruence).
    assert (d' = 1) by (vm_compute in Hd'; congruence).
    subst. split; assumption.
Defined.

(** ** One row per pair *)

Module KeyFacts.

Lemma NoDup_map_filter {X Y : Type} (f : X -> Y) (p : X -> bool) (l : list X) :
  NoDup (map f l) -> NoDup (map f (filter p l)).
Proof.
  induction l as [ | x l IH ]; simpl; intros H; [ constructor | ].
  inversion H as [ | ? ? Hx Hl ]; subst.
  destruct (p x); simpl; [ | now apply IH ].
  constructor; [ | now apply IH ].
  intros Hin. apply Hx. apply in_map_iff in Hin. destruct Hin as [y [<- Hy]].
  apply filter_In in Hy. apply in_map. tauto.
Qed.

Lemma join_recovered_key (cd : cases_deaths_row) (r : option series_row) :
  jhu_key (join_recovered cd r) = cd_key cd.
Proof. reflexivity. Qed.

Lemma join_deaths_key (c d : series_row) :
  cd_key (join_deaths c d) = series_key c.
Proof. reflexivity. Qed.

(** Files with one row per country and date give a merged frame with one
    row per country and date. *)
Lemma df_jhu_NoDup (confirmed deaths recovered : list dated_row) :
  NoDup (map series_key (select confirmed)) ->
  NoDup (map series_key (select deaths)) ->
  NoDup (map series_key (select recovered)) ->
  NoDup (map jhu_key (df_jhu confirmed deaths recovered)).
Proof.
  intros Hc Hd Hr. unfold df_jhu.
  rewrite (merge_left_keys_exact cd_key series_key jhu_key);
    [ | apply join_recovered_key | exact Hr ].
  apply merge_inner_NoDup; [ apply join_deaths_key | exact Hc | exact Hd ].
Qed.

Lemma owid_filtered_keys (owid : list owid_row) (countries : list string) :
  map rated_key (df_owid_filtered owid countries)
  = map owid_key (filter_owid owid countries).
Proof.
  unfold df_owid_filtered, add_vaccination_rate, fillna_owid.
  rewrite !map_map. reflexivity.
Qed.

End KeyFacts.
Import KeyFacts.

(** Files without repeated pairs.  When each of the three cumulative files
    has at most one row per (country, date) pair, and the rate source at
    most one record per (location, date) pair, the pairs of the panel are
    pairwise
    distinct: the panel has exactly one row for each pair of the filtered
    cumulative frame and none for any other pair. *)
Theorem one_row_per_pair :
  forall (confirmed deaths recovered : list dated_row) (owid : list owid_row)
    (countries : list string),
    NoDup (map series_key (select confirmed)) ->
    NoDup (map series_key (select deaths)) ->
    NoDup (map series_key (select recovered)) ->
    NoDup (map owid_key owid) ->
    NoDup (map panel_key (df_combined confirmed deaths recovered owid countries))
    /\ forall k : key,
        (In k (map jhu_key (df_jhu_selected confirmed deaths recovered countries)) ->
         length (rows_at panel_key k
                   (df_combined confirmed deaths recovered owid countries)) = 1%nat)
        /\
        (~ In k (map jhu_key (df_jhu_selected confirmed deaths recovered countries)) ->
         rows_at panel_key k
           (df_combined confirmed deaths recovered owid countries) = []).
Proof.
  intros confirmed deaths recovered owid countries Hc Hd Hr Ho.
  assert (Hnd : NoDup (map panel_key
                         (df_combined confirmed deaths recovered owid countries))).
  { unfold df_combined.
    rewrite (merge_left_keys_exact metrics_key rated_key panel_key);
      [ | apply join_owid_key
        | rewrite owid_filtered_keys; now apply NoDup_map_filter ].
    rewrite filtered_keys.
    apply (Permutation_NoDup
             (l := map jhu_key
                     (fillna_jhu (df_jhu_selected confirmed deaths recovered countries)))).
    - apply Permutation_map. symmetry. apply sorted_perm.
    - rewrite fillna_jhu_keys. unfold df_jhu_selected, filter_jhu.
      apply NoDup_map_filter. now apply df_jhu_NoDup. }
  split; [ exact Hnd | ].
  intros k. split; intros Hk.
  - apply (combined_keys confirmed deaths recovered owid countries k) in Hk.
    pose proof (rows_at_unique panel_key k _ Hnd).
    pose proof (rows_at_present panel_key k _ Hk). lia.
  - apply rows_at_absent. intros Hin. apply Hk.
    now apply (combined_keys confirmed deaths recovered owid countries k).
Qed.

Ltac distinct_keys :=
  vm_compute;
  repeat (constructor; [ simpl; intuition congruence | ]);
  constructor.

(** Country A, one row per day in every file. *)
Lemma one_row_per_pair_witness :
  NoDup (map series_key (select (dated cases_A)))
  /\ NoDup (map series_key (select (dated deaths_A)))
  /\ NoDup (map series_key (select (dated recovered_none)))
  /\ NoDup (map owid_key owid_A)
  /\ NoDup (map panel_key panel_A).
Proof.
  assert (Hc : NoDup (map series_key (select (dated cases_A))))
    by distinct_keys.
  assert (Hd : NoDup (map series_key (select (dated deaths_A))))
    by distinct_keys.
  assert (Hr : NoDup (map series_key (select (dated recovered_none))))
    by distinct_keys.
  assert (Ho : NoDup (map owid_key owid_A)) by distinct_keys.
  repeat (split; [ assumption | ]).
  exact (proj1 (one_row_per_pair (dated cases_A) (dated deaths_A)
                  (dated recovered_none) owid_A ["A"] Hc Hd Hr Ho)).
Defined.

(** C6 as stated fails: Australia is reported by two provinces in each of
    the three files, on one day.  Nothing sums the provinces: the panel has
    eight rows for that one pair, each with the count of a single
    province. *)
Lemma province_rows_multiply :
  outcome (run_cell parse_date by_province by_province by_province []
             "Australia")
  = inr panel_provinces
  /\ length (rows_at panel_key ("Australia", 20210101) panel_provinces) = 8%nat
  /\ ~ In (Some 30) (map p_total_cases panel_provinces).
Proof.
  split; [ vm_compute; reflexivity | ].
  split; [ vm_compute; reflexivity | ].
  vm_compute. intuition discriminate.
Qed.

(** ** The reshaper *)

Module ReshapeFacts.

Lemma combine_nth_error {X Y : Type} (l : list X) (l' : list Y) :
  forall i x y,
    nth_error l i = Some x -> nth_error l' i = Some y ->
    nth_error (combine l l') i = Some (x, y).
Proof.
  revert l'. induction l as [ | a l IH ]; intros [ | b l' ] [ | i ] x y Hx Hy;
    simpl in *; try discriminate.
  - congruence.
  - now apply IH.
Qed.

Lemma combine_map_snd {X Y : Type} (l : list X) (l' : list Y) :
  length l = length l' -> map snd (combine l l') = l'.
Proof.
  revert l'. induction l as [ | x l IH ]; intros [ | y l' ]; simpl;
    intros H; try discriminate; [ reflexivity | ].
  f_equal. apply IH. lia.
Qed.

Section Melt.
Variable ids : list id_cols.

Lemma melt_column_length (col : string * list cell) :
  length (snd col) = length ids ->
  length (melt_column ids col) = length ids.
Proof.
  intros H. unfold melt_column. rewrite length_map, length_combine. lia.
Qed.

Lemma melt_column_nth (col : string * list cell) (i : nat) (id : id_cols)
  (x : cell) :
  nth_error ids i = Some id -> nth_error (snd col) i = Some x ->
  nth_error (melt_column ids col) i = Some (mk_long id (fst col) x).
Proof.
  intros Hi Hx. unfold melt_column.
  rewrite nth_error_map, (combine_nth_error _ _ i id x Hi Hx). reflexivity.
Qed.

Lemma melt_column_ids (col : string * list cell) :
  length (snd col) = length ids -> map l_id (melt_column ids col) = ids.
Proof.
  intros H. unfold melt_column. rewrite map_map. simpl.
  change (map (fun x : id_cols * cell => fst x)) with (map (@fst id_cols cell)).
  apply combine_map_fst. lia.
Qed.

Lemma melt_column_values (col : string * list cell) :
  length (snd col) = length ids ->
  map l_value (melt_column ids col) = snd col.
Proof.
  intros H. unfold melt_column. rewrite map_map. simpl.
  change (map (fun x : id_cols * cell => snd x)) with (map (@snd id_cols cell)).
  apply combine_map_snd. lia.
Qed.

Lemma melt_column_dates (col : string * list cell) (r : long_row) :
  In r (melt_column ids col) -> l_date r = fst col /\ In (l_id r) ids.
Proof.
  unfold melt_column. rewrite in_map_iff. intros [[id x] [<- H]].
  apply in_combine_l in H. auto.
Qed.

Lemma melt_length (cols : list (string * list cell)) :
  Forall (fun col => length (snd col) = length ids) cols ->
  length (flat_map (melt_column ids) cols)
  = (length cols * length ids)%nat.
Proof.
  induction 1 as [ | col cols Hc _ IH ]; simpl; [ reflexivity | ].
  now rewrite length_app, IH, melt_column_length.
Qed.

Lemma melt_nth (cols : list (string * list cell)) :
  Forall (fun col => length (snd col) = length ids) cols ->
  forall i j id h col x,
    nth_error ids i = Some id ->
    nth_error cols j = Some (h, col) ->
    nth_error col i = Some x ->
    nth_error (flat_map (melt_column ids) cols) (j * length ids + i)
    = Some (mk_long id h x).
Proof.
  induction 1 as [ | c cols Hc _ IH ]; intros i j id h col x Hi Hj Hx.
  - destruct j; discriminate.
  - assert (Hlt : (i < length ids)%nat)
      by (apply nth_error_Some; congruence).
    simpl. destruct j as [ | j ]; simpl in *.
    + inversion Hj; subst c.
      rewrite nth_error_app1 by (rewrite melt_column_length; auto).
      now apply (melt_column_nth (h, col)).
    + rewrite nth_error_app2 by (rewrite melt_column_length; auto; lia).
      rewrite melt_column_length by exact Hc.
      replace (length ids + j * length ids + i - length ids)%nat
        with (j * length ids + i)%nat by lia.
      now apply (IH i j id h col x).
Qed.

(** The date column of the long frame: every header, once per row. *)
Lemma melt_dates (cols : list (string * list cell)) :
  Forall (fun col => length (snd col) = length ids) cols ->
  map l_date (flat_map (melt_column ids) cols)
  = flat_map (fun col => repeat (fst col) (length ids)) cols.
Proof.
  induction 1 as [ | c cols Hc _ IH ]; simpl; [ reflexivity | ].
  rewrite map_app, IH. f_equal.
  unfold melt_column. rewrite map_map. simpl.
  clear IH. revert Hc. generalize (snd c). generalize ids.
  intros l. induction l as [ | x l IHl ]; intros [ | y ys ] Hlen; simpl in *;
    try discriminate; [ reflexivity | ].
  f_equal. apply IHl. lia.
Qed.
End Melt.

Section Conversion.
Variable to_datetime : list string -> converted (list Z).

(** The conversion of a long frame warns and raises as the call on its
    date column does. *)
Lemma to_datetime_long_call (rows : list long_row) :
  fst (to_datetime_long to_datetime rows) = fst (to_datetime (map l_date rows))
  /\ forall e,
       snd (to_datetime_long to_datetime rows) = inl e
       <-> snd (to_datetime (map l_date rows)) = inl e.
Proof.
  unfold to_datetime_long, bind, ret. simpl. split; [ reflexivity | ].
  intros e. destruct (snd (to_datetime (map l_date rows))) as [e' | ds]; simpl.
  - split; congruence.
  - split; discriminate.
Qed.

Lemma to_datetime_long_ok (rows : list long_row) :
  (exists ds, snd (to_datetime_long to_datetime rows) = inr ds)
  <-> exists ts, snd (to_datetime (map l_date rows)) = inr ts.
Proof.
  unfold to_datetime_long, bind, ret. simpl.
  destruct (snd (to_datetime (map l_date rows))) as [e | ts]; simpl.
  - split; intros [x Hx]; discriminate.
  - split; intros _; eexists; reflexivity.
Qed.


Lemma to_datetime_owid_call (rows : list owid_raw) :
  fst (to_datetime_owid to_datetime rows) = fst (to_datetime (map raw_date rows))
  /\ forall e,
       snd (to_datetime_owid to_datetime rows) = inl e
       <-> snd (to_datetime (map raw_date rows)) = inl e.
Proof.
  unfold to_datetime_owid, bind, ret. simpl. split; [ reflexivity | ].
  intros e. destruct (snd (to_datetime (map raw_date rows))) as [e' | ds]; simpl.
  - split; congruence.
  - split; discriminate.
Qed.
End Conversion.

End ReshapeFacts.
Import ReshapeFacts.

(** C7, as the cell has it.  On a rectangular table none of whose columns
    bears the value name, which [pd.melt] would refuse, [reshape_jhu]
    returns one long record per (row, date column) pair, column after
    column, with the
    identifier columns of the row, the cell, and the header of the column as
    it is written: it reads no header as a date, and a table without date
    columns or without rows is reshaped to the empty frame.  The headers are
    read by the next statement, one call of [pd.to_datetime] on the date
    column of the long frame, which holds every header once per row: the
    stage warns and raises as that call does on that column. *)
Theorem reshape_jhu_total :
  forall (to_datetime : list string -> converted (list Z)) (df : wide_table)
    (v : string),
    rectangular df ->
    ~ In v (columns df) ->
    length (long_rows (reshape_jhu df v))
    = (length (date_columns df) * length (id_rows df))%nat
    /\ (forall i j id h col x,
           nth_error (id_rows df) i = Some id ->
           nth_error (date_columns df) j = Some (h, col) ->
           nth_error col i = Some x ->
           nth_error (long_rows (reshape_jhu df v)) (j * length (id_rows df) + i)
           = Some (mk_long id h x))
    /\ map l_date (long_rows (reshape_jhu df v))
       = flat_map (fun col => repeat (fst col) (length (id_rows df)))
           (date_columns df)
    /\ (date_columns df = [] \/ id_rows df = [] ->
        long_rows (reshape_jhu df v) = [])
    /\ fst (reshape_dated to_datetime df v)
       = fst (to_datetime
                (flat_map (fun col => repeat (fst col) (length (id_rows df)))
                   (date_columns df)))
    /\ (forall e,
          snd (reshape_dated to_datetime df v) = inl e
          <-> snd (to_datetime
                     (flat_map (fun col => repeat (fst col) (length (id_rows df)))
                        (date_columns df))) = inl e).
Proof.
  intros to_datetime df v Hrect _. unfold rectangular in Hrect.
  pose proof (melt_dates (id_rows df) (date_columns df) Hrect) as Hdates.
  pose proof (melt_length (id_rows df) (date_columns df) Hrect) as Hlen.
  split; [ exact Hlen | ]. split; [ | split; [ exact Hdates | split ] ].
  - intros i j id h col x Hi Hj Hx. simpl.
    now apply (melt_nth (id_rows df) (date_columns df) Hrect i j id h col x).
  - intros H. simpl. apply length_zero_iff_nil. rewrite Hlen.
    destruct H as [-> | ->]; simpl; lia.
  - unfold reshape_dated. simpl (long_rows _). rewrite <- Hdates.
    apply to_datetime_long_call.
Qed.

(** The cases of country A: two date columns, one row, two long records. *)
Lemma reshape_jhu_total_witness :
  rectangular cases_A
  /\ ~ In "total_cases" (columns cases_A)
  /\ length (long_rows (reshape_jhu cases_A "total_cases")) = 2%nat
  /\ map l_date (long_rows (reshape_jhu cases_A "total_cases"))
     = ["1/1/21"; "1/2/21"].
Proof.
  assert (Hrect : rectangular cases_A) by (repeat constructor).
  assert (Hname : ~ In "total_cases" (columns cases_A))
    by (simpl; intuition discriminate).
  split; [ exact Hrect | ]. split; [ exact Hname | ].
  destruct (reshape_jhu_total parse_date cases_A "total_cases" Hrect Hname)
    as [Hlen [_ [Hdates _]]].
  split; [ exact Hlen | exact Hdates ].
Defined.

(** C7 as stated fails: a table without date columns is reshaped to the
    empty frame and the stage ends without an exception; a table whose
    header is no date is reshaped too, the header kept as it is written; and
    with no rows such a header never reaches the parser. *)
Lemma reshape_raises_nothing :
  date_columns no_dates = []
  /\ long_rows (reshape_jhu no_dates "total_cases") = []
  /\ snd (reshape_dated parse_date no_dates "total_cases") = inr []
  /\ long_rows (reshape_jhu bad_header "total_cases")
     = [mk_long (country_row "A") "total" (Some 1)]
  /\ date_columns bad_header_no_rows = [("total", [])]
  /\ snd (reshape_dated parse_date bad_header_no_rows "total_cases") = inr [].
Proof. repeat split; vm_compute; reflexivity. Qed.

(** ** Reshaping and re-widening *)

Module RoundTrip.

Lemma blocks_run (h : string) (xs rest : list long_row) :
  xs <> [] ->
  Forall (fun r => l_date r = h) xs ->
  match blocks rest with
  | [] => True
  | (h', _) :: _ => h' <> h
  end ->
  blocks (xs ++ rest) = (h, xs) :: blocks rest.
Proof.
  intros Hne Hh Hrest. induction xs as [ | r xs IH ]; [ contradiction | ].
  inversion Hh as [ | ? ? Hr Hxs ]; subst.
  destruct xs as [ | r' xs' ].
  - simpl. destruct (blocks rest) as [ | [h' b] bs ]; [ reflexivity | ].
    assert (E : String.eqb (l_date r) h' = false)
      by (apply String.eqb_neq; congruence).
    now rewrite E.
  - change ((r :: r' :: xs') ++ rest) with (r :: ((r' :: xs') ++ rest)).
    cbn [blocks]. fold (blocks ((r' :: xs') ++ rest)).
    rewrite IH by (try discriminate; assumption).
    now rewrite String.eqb_refl.
Qed.

Lemma blocks_melt (ids : list id_cols) (cols : list (string * list cell)) :
  ids <> [] ->
  Forall (fun col => length (snd col) = length ids) cols ->
  NoDup (map fst cols) ->
  blocks (flat_map (melt_column ids) cols)
  = map (fun c => (fst c, melt_column ids c)) cols.
Proof.
  intros Hids Hrect Hnd.
  induction cols as [ | c cols IH ]; [ reflexivity | ].
  inversion Hrect as [ | ? ? Hc Hrect' ]; subst.
  inversion Hnd as [ | ? ? Hfresh Hnd' ]; subst.
  specialize (IH Hrect' Hnd'). simpl.
  rewrite (blocks_run (fst c)).
  - now rewrite IH.
  - intros E. apply (f_equal (@length long_row)) in E.
    rewrite melt_column_length in E by exact Hc.
    destruct ids; [ contradiction | discriminate ].
  - apply Forall_forall. intros r Hr.
    now destruct (melt_column_dates ids c r Hr).
  - rewrite IH. destruct cols as [ | c' cols' ]; simpl; [ exact I | ].
    intros E. apply Hfresh. simpl. now left.
Qed.

End RoundTrip.
Import RoundTrip.

(** C10, amended.  For a rectangular wide table with at least one row, at
    least one date column and pairwise distinct date headers, reshaping it
    and re-widening the long records, read with all four identifier
    columns, gives the table back. *)
Theorem reshape_then_rewiden :
  forall (df : wide_table) (v : string),
    rectangular df ->
    id_rows df <> [] ->
    date_columns df <> [] ->
    NoDup (map fst (date_columns df)) ->
    rewiden (long_rows (reshape_jhu df v)) = df.
Proof.
  intros [ids cols] v Hrect Hids Hcols Hnd. unfold rectangular in Hrect.
  simpl in *. unfold rewiden.
  rewrite (blocks_melt ids cols Hids Hrect Hnd).
  destruct cols as [ | c cols' ]; [ contradiction | ].
  f_equal.
  - simpl. apply melt_column_ids. now inversion Hrect.
  - rewrite map_map. rewrite <- (map_id (c :: cols')) at 2.
    apply map_ext_in. intros c0 Hc0. simpl.
    rewrite Forall_forall in Hrect.
    rewrite melt_column_values by now apply Hrect.
    now destruct c0.
Qed.

(** The cases of country A go through the round trip. *)
Lemma reshape_then_rewiden_witness :
  rectangular cases_A
  /\ id_rows cases_A <> []
  /\ date_columns cases_A <> []
  /\ NoDup (map fst (date_columns cases_A))
  /\ rewiden (long_rows (reshape_jhu cases_A "total_cases")) = cases_A.
Proof.
  assert (H1 : rectangular cases_A) by (repeat constructor).
  assert (H2 : id_rows cases_A <> []) by discriminate.
  assert (H3 : date_columns cases_A <> []) by discriminate.
  assert (H4 : NoDup (map fst (date_columns cases_A))).
  { simpl. repeat (constructor; [ simpl; intuition congruence | ]). constructor. }
  repeat (split; [ assumption | ]).
  exact (reshape_then_rewiden cases_A "total_cases" H1 H2 H3 H4).
Defined.

(** C10 as stated fails: two tables with a date column that differ in
    their provinces reshape to the same (country, date, value) triples, so
    no re-widening of the triples recovers every table. *)
Lemma triples_forget_the_rows :
  ~ exists widen : list (string * string * cell) -> wide_table,
      forall df : wide_table,
        rectangular df ->
        date_columns df <> [] ->
        widen (map triple (long_rows (reshape_jhu df "total_cases"))) = df.
Proof.
  intros [widen H].
  assert (H1 : widen (map triple (long_rows (reshape_jhu by_province "total_cases")))
               = by_province).
  { apply H; [ repeat constructor | discriminate ]. }
  assert (H2 : widen (map triple
                        (long_rows (reshape_jhu by_other_provinces "total_cases")))
               = by_other_provinces).
  { apply H; [ repeat constructor | discriminate ]. }
  assert (E : map triple (long_rows (reshape_jhu by_province "total_cases"))
              = map triple (long_rows (reshape_jhu by_other_provinces "total_cases")))
    by reflexivity.
  rewrite E, H2 in H1. discriminate.
Qed.

(** ** The selection *)

Module RunFacts.


Lemma and_next_inl {A B : Type} (m : converted A) (k : A -> converted B) (e : exn) :
  snd (and_next m k) = inl e <->
  snd m = inl e \/ exists a, snd m = inr a /\ snd (k a) = inl e.
Proof.
  unfold and_next. destruct (snd m) as [e' | a]; simpl.
  - split; [ intros H; left; congruence | ].
    intros [H | [a [H _]]]; [ congruence | discriminate ].
  - split; [ intros H; right; now exists a | ].
    intros [H | [a' [H H']]]; [ discriminate | ].
    inversion H; subst a'. exact H'.
Qed.

Section Loaded.
Variable to_datetime : list string -> converted (list Z).
Variables df_confirmed df_deaths df_recovered : wide_table.
Variable owid : list owid_raw.




End Loaded.

End RunFacts.
Import RunFacts.




(** * Further properties of the cell *)

(** ** How many rows a merge makes *)

Module CountFacts.

Section Counting.
Context {A : Type}.
Variable kf : A -> key.

Lemma rows_at_app (k : key) (l l' : list A) :
  rows_at kf k (l ++ l') = rows_at kf k l ++ rows_at kf k l'.
Proof. unfold rows_at. apply filter_app. Qed.

(** A block of rows with one key is taken whole, or not at all. *)
Lemma rows_at_block (k k0 : key) (l : list A) :
  (forall x, In x l -> kf x = k0) ->
  rows_at kf k l = if key_eqb k k0 then l else [].
Proof.
  intros H. unfold rows_at. induction l as [ | x l IH ]; simpl.
  - now destruct (key_eqb k k0).
  - rewrite (H x (or_introl eq_refl)).
    rewrite IH by (intros y Hy; apply H; now right).
    now destruct (key_eqb k k0).
Qed.

Lemma rows_at_perm (k : key) (l l' : list A) :
  Permutation l l' -> length (rows_at kf k l) = length (rows_at kf k l').
Proof.
  unfold rows_at. induction 1 as [ | x l l' _ IH | x y l | l l' l'' _ IH1 _ IH2 ];
    simpl.
  - reflexivity.
  - destruct (key_eqb k (kf x)); simpl; now rewrite IH.
  - destruct (key_eqb k (kf x)), (key_eqb k (kf y)); reflexivity.
  - now rewrite IH1.
Qed.

Lemma rows_at_filter (k : key) (p : A -> bool) (b : bool) (l : list A) :
  (forall x, kf x = k -> p x = b) ->
  rows_at kf k (filter p l) = if b then rows_at kf k l else [].
Proof.
  intros H. unfold rows_at. induction l as [ | x l IH ]; simpl.
  - now destruct b.
  - destruct (key_eqb k (kf x)) eqn:E.
    + apply key_eqb_eq in E. rewrite (H x (eq_sym E)).
      destruct b; simpl; [ | exact IH ].
      assert (E' : key_eqb k (kf x) = true) by now apply key_eqb_eq.
      rewrite E'. now rewrite IH.
    + destruct (p x); simpl; [ rewrite E | ]; exact IH.
Qed.
End Counting.

Lemma rows_at_map {A B : Type} (kf : B -> key) (g : A -> B) (k : key)
  (l : list A) :
  rows_at kf k (map g l) = map g (rows_at (fun x => kf (g x)) k l).
Proof.
  unfold rows_at. induction l as [ | x l IH ]; simpl; [ reflexivity | ].
  destruct (key_eqb k (kf (g x))); simpl; now rewrite IH.
Qed.

Section MergeCounts.
Context {A B C : Type}.
Variable kl : A -> key.
Variable kr : B -> key.
Variable kc : C -> key.

(** An inner merge has, for each key, every pairing of a left row with a
    right row. *)
Lemma merge_inner_count (f : A -> B -> C) (l : list A) (r : list B) (k : key) :
  (forall a b, kc (f a b) = kl a) ->
  length (rows_at kc k (merge_inner kl kr f l r))
  = (length (rows_at kl k l) * length (rows_at kr k r))%nat.
Proof.
  intros Hf. unfold merge_inner.
  induction l as [ | a l IH ]; simpl; [ reflexivity | ].
  rewrite rows_at_app, length_app, IH.
  rewrite (rows_at_block kc k (kl a))
    by (intros c Hc; apply in_map_iff in Hc; destruct Hc as [b [<- _]];
        apply Hf).
  destruct (key_eqb k (kl a)) eqn:E; simpl.
  - apply key_eqb_eq in E. subst k. rewrite length_map.
    unfold matches, rows_at. lia.
  - lia.
Qed.

(** A left merge has each left row once for every right row of its key,
    and once when there is none. *)
Lemma merge_left_count (f : A -> option B -> C) (l : list A) (r : list B)
  (k : key) :
  (forall a o, kc (f a o) = kl a) ->
  length (rows_at kc k (merge_left kl kr f l r))
  = (length (rows_at kl k l) * Nat.max 1 (length (rows_at kr k r)))%nat.
Proof.
  intros Hf. unfold merge_left.
  induction l as [ | a l IH ]; [ reflexivity | ].
  cbn [flat_map]. rewrite rows_at_app, length_app, IH.
  rewrite (rows_at_block kc k (kl a)).
  2:{ intros c Hc. destruct (matches kl kr a r) as [ | b0 bs ].
      - destruct Hc as [ <- | [] ]. apply Hf.
      - apply in_map_iff in Hc. destruct Hc as [b [<- _]]. apply Hf. }
  change (rows_at kl k (a :: l))
    with (if key_eqb k (kl a) then a :: rows_at kl k l else rows_at kl k l).
  destruct (key_eqb k (kl a)) eqn:E; [ | simpl; lia ].
  apply key_eqb_eq in E. subst k.
  change (rows_at kr (kl a) r) with (matches kl kr a r).
  destruct (matches kl kr a r) as [ | b0 bs ].
  - simpl. lia.
  - rewrite length_map. simpl. lia.
Qed.
End MergeCounts.

End CountFacts.
Import CountFacts.

(** X1.  The three-way merge of the cumulative files has, for every
    (country, date) pair, one row for each way of picking a cases row and a
    deaths row of that pair, times the number of recoveries rows of the pair
    when there are any: pairs missing from the cases or from the deaths file
    are dropped, pairs missing from the recoveries file are kept. *)
Theorem df_jhu_row_count :
  forall (confirmed deaths recovered : list dated_row) (k : key),
    length (rows_at jhu_key k (df_jhu confirmed deaths recovered))
    = (length (rows_at series_key k (select confirmed))
       * length (rows_at series_key k (select deaths))
       * Nat.max 1 (length (rows_at series_key k (select recovered))))%nat.
Proof.
  intros confirmed deaths recovered k. unfold df_jhu.
  rewrite (merge_left_count cd_key series_key jhu_key)
    by apply join_recovered_key.
  rewrite (merge_inner_count series_key series_key cd_key)
    by apply join_deaths_key.
  reflexivity.
Qed.

Module PanelCount.

Lemma rows_at_ext {A : Type} (kf kf' : A -> key) (k : key) (l : list A) :
  (forall x, kf x = kf' x) -> rows_at kf k l = rows_at kf' k l.
Proof.
  intros H. unfold rows_at. apply filter_ext. intros x. now rewrite H.
Qed.

Section Counts.
Variables confirmed deaths recovered : list dated_row.
Variable owid : list owid_row.
Variable countries : list string.

Lemma selected_count (k : key) :
  length (rows_at jhu_key k
            (df_jhu_selected confirmed deaths recovered countries))
  = if isin (fst k) (countries_jhu countries)
    then length (rows_at jhu_key k (df_jhu confirmed deaths recovered))
    else O.
Proof.
  unfold df_jhu_selected, filter_jhu.
  rewrite (rows_at_filter jhu_key k _ (isin (fst k) (countries_jhu countries))).
  - now destruct (isin (fst k) (countries_jhu countries)).
  - intros x <-. reflexivity.
Qed.

Lemma filtered_count (k : key) :
  length (rows_at metrics_key k
            (df_jhu_filtered confirmed deaths recovered countries))
  = length (rows_at jhu_key k
              (df_jhu_selected confirmed deaths recovered countries)).
Proof.
  rewrite rename_is_identity.
  change metrics_key with (fun m => jhu_key (m_row m)).
  rewrite <- (length_map m_row), <- rows_at_map, metrics_rows.
  rewrite (rows_at_perm jhu_key k _ _
             (sorted_perm confirmed deaths recovered countries)).
  unfold fillna_jhu. rewrite rows_at_map, length_map. reflexivity.
Qed.

Lemma owid_filtered_count (k : key) :
  length (rows_at rated_key k (df_owid_filtered owid countries))
  = if isin (fst k) countries then length (rows_at owid_key k owid) else O.
Proof.
  unfold df_owid_filtered, add_vaccination_rate, fillna_owid, filter_owid.
  rewrite map_map, rows_at_map, length_map.
  rewrite (rows_at_ext _ owid_key) by reflexivity.
  rewrite (rows_at_filter owid_key k _ (isin (fst k) countries)).
  - now destruct (isin (fst k) countries).
  - intros x <-. reflexivity.
Qed.
End Counts.

End PanelCount.
Import PanelCount.

(** X2.  The number of panel rows of a (country, date) pair: none when the
    country is not among the translated selection names; otherwise the rows
    of the pair in the three-way merge, each repeated once per OWID record
    of the pair whose location is among the names as typed, and kept once
    when there is no such record. *)
Theorem panel_row_count :
  forall (confirmed deaths recovered : list dated_row) (owid : list owid_row)
    (countries : list string) (k : key),
    length (rows_at panel_key k
              (df_combined confirmed deaths recovered owid countries))
    = ((if isin (fst k) (countries_jhu countries)
        then length (rows_at jhu_key k (df_jhu confirmed deaths recovered))
        else O)
       * Nat.max 1 (if isin (fst k) countries
                    then length (rows_at owid_key k owid) else O))%nat.
Proof.
  intros confirmed deaths recovered owid countries k. unfold df_combined.
  rewrite (merge_left_count metrics_key rated_key panel_key)
    by apply join_owid_key.
  now rewrite filtered_count, selected_count, owid_filtered_count.
Qed.

(** ** The order and the rows of the panel *)

Module PanelOrder.

Lemma StronglySorted_app {X : Type} (R : X -> X -> Prop) (l1 l2 : list X) :
  StronglySorted R l1 -> StronglySorted R l2 ->
  (forall x y, In x l1 -> In y l2 -> R x y) ->
  StronglySorted R (l1 ++ l2).
Proof.
  induction 1 as [ | x l1 Hs IH Hx ]; simpl; intros H2 Hc; [ assumption | ].
  constructor.
  - apply IH; [ assumption | ]. intros a b Ha Hb. apply Hc; auto.
  - apply Forall_app. split; [ assumption | ].
    apply Forall_forall. intros y Hy. apply Hc; auto.
Qed.

Lemma block_sorted {X : Type} (kf : X -> key) (k0 : key) (l : list X) :
  (forall x, In x l -> kf x = k0) -> StronglySorted (ordered kf) l.
Proof.
  induction l as [ | x l IH ]; intros H; constructor.
  - apply IH. intros y Hy. apply H. now right.
  - apply Forall_forall. intros y Hy. unfold ordered.
    rewrite (H x (or_introl eq_refl)), (H y (or_intror Hy)).
    apply key_leb_refl.
Qed.

Section LeftMerge.
Context {A B C : Type}.
Variable kl : A -> key.
Variable kr : B -> key.
Variable kc : C -> key.
Variable f : A -> option B -> C.
Hypothesis Hf : forall a o, kc (f a o) = kl a.

Lemma merge_left_block (a : A) (r : list B) (c : C) :
  In c (match matches kl kr a r with
        | [] => [f a None]
        | ms => map (fun b => f a (Some b)) ms
        end) ->
  kc c = kl a.
Proof.
  destruct (matches kl kr a r) as [ | b0 bs ].
  - intros [ <- | [] ]. apply Hf.
  - intros Hc. apply in_map_iff in Hc. destruct Hc as [b [<- _]]. apply Hf.
Qed.

(** A left merge keeps the order of its left frame. *)
Lemma merge_left_sorted (l : list A) (r : list B) :
  StronglySorted (ordered kl) l ->
  StronglySorted (ordered kc) (merge_left kl kr f l r).
Proof.
  unfold merge_left. induction 1 as [ | a l Hs IH Ha ]; [ constructor | ].
  cbn [flat_map]. apply StronglySorted_app.
  - apply (block_sorted kc (kl a)). intros c. apply merge_left_block.
  - exact IH.
  - intros x y Hx Hy. apply merge_left_block in Hx.
    apply in_flat_map in Hy. destruct Hy as [a' [Ha' Hy]].
    apply merge_left_block in Hy. unfold ordered. rewrite Hx, Hy.
    rewrite Forall_forall in Ha. now apply Ha.
Qed.

(** With distinct right keys a left merge makes one row of each left
    row. *)
Lemma merge_left_one_each {D : Type} (g : C -> D) (h : A -> D) (l : list A)
  (r : list B) :
  (forall a o, g (f a o) = h a) ->
  NoDup (map kr r) ->
  map g (merge_left kl kr f l r) = map h l.
Proof.
  intros Hg Hnd. unfold merge_left.
  induction l as [ | a l IH ]; [ reflexivity | ].
  cbn [flat_map]. rewrite map_app, IH.
  change (map h (a :: l)) with ([h a] ++ map h l). f_equal.
  pose proof (rows_at_unique kr (kl a) r Hnd) as Hle.
  change (rows_at kr (kl a) r) with (matches kl kr a r) in Hle.
  destruct (matches kl kr a r) as [ | b [ | b' bs ] ]; simpl in *.
  - now rewrite Hg.
  - now rewrite Hg.
  - lia.
Qed.
End LeftMerge.

Lemma jhu_part_join (m : metrics_row) (o : option rated_row) :
  jhu_part (join_owid m o) = m.
Proof. destruct m as [[c d tc td tr] nc nd dr], o; reflexivity. Qed.

End PanelOrder.
Import PanelOrder.

(** X3.  Whatever the sources and the selection, the final panel is in the
    order of (country, date): the left merge with the OWID frame keeps the
    order in which the cumulative frame was sorted. *)
Theorem panel_sorted :
  forall (confirmed deaths recovered : list dated_row) (owid : list owid_row)
    (countries : list string),
    StronglySorted (ordered panel_key)
      (df_combined confirmed deaths recovered owid countries).
Proof.
  intros confirmed deaths recovered owid countries. unfold df_combined.
  apply (merge_left_sorted metrics_key rated_key panel_key);
    [ apply join_owid_key | ].
  rewrite rename_is_identity. apply metrics_sorted.
Qed.

(** X4.  When the rate source has at most one record per (location, date)
    pair, the final merge only adds columns: the cumulative-side columns of
    the panel, row for row, are the frame of the daily metrics. *)
Theorem panel_is_metrics_frame :
  forall (confirmed deaths recovered : list dated_row) (owid : list owid_row)
    (countries : list string),
    NoDup (map owid_key owid) ->
    map jhu_part (df_combined confirmed deaths recovered owid countries)
    = df_jhu_metrics confirmed deaths recovered countries.
Proof.
  intros confirmed deaths recovered owid countries Hnd. unfold df_combined.
  rewrite (merge_left_one_each metrics_key rated_key join_owid jhu_part
             (fun m => m)).
  - rewrite map_id. apply rename_is_identity.
  - apply jhu_part_join.
  - rewrite owid_filtered_keys. now apply NoDup_map_filter.
Qed.

(** Country A with one OWID record a day. *)
Lemma panel_is_metrics_frame_witness :
  NoDup (map owid_key owid_A2) /\ map jhu_part panel_A2 = metrics_A.
Proof.
  assert (H : NoDup (map owid_key owid_A2)) by distinct_keys.
  split; [ exact H | ].
  exact (panel_is_metrics_frame (dated cases_A) (dated deaths_A)
           recovered_A_day1 owid_A2 ["A"] H).
Defined.

(** ** Where the columns of a panel row come from *)

Module Provenance.

(** [fillna] on one OWID record. *)
Lemma fillna_owid_In (df : list owid_row) (r : owid_row) :
  In r (fillna_owid df) <->
  exists r0, In r0 df /\
    r = mk_owid (location r0) (o_date r0) (fillna 0 (total_vaccinations r0))
          (fillna 0 (people_fully_vaccinated r0)) (population r0) (iso_code r0).
Proof.
  unfold fillna_owid. rewrite in_map_iff. split.
  - intros [r0 [<- H]]. now exists r0.
  - intros [r0 [H ->]]. now exists r0.
Qed.

Section Rows.
Variables confirmed deaths recovered : list dated_row.
Variable owid : list owid_row.
Variable countries : list string.

(** A record of the rate frame is a record of the source whose location was
    typed, with its two vaccination fields filled. *)
Lemma owid_filtered_row (v : rated_row) :
  In v (df_owid_filtered owid countries) <->
  exists r0, In r0 owid /\ In (location r0) countries /\
    rated_key v = owid_key r0 /\
    total_vaccinations (r_row v) = fillna 0 (total_vaccinations r0) /\
    people_fully_vaccinated (r_row v) = fillna 0 (people_fully_vaccinated r0) /\
    population (r_row v) = population r0 /\
    iso_code (r_row v) = iso_code r0 /\
    vaccination_rate v = vaccination_rate_of (r_row v) /\
    r_row v = mk_owid (location r0) (o_date r0) (fillna 0 (total_vaccinations r0))
                (fillna 0 (people_fully_vaccinated r0)) (population r0)
                (iso_code r0).
Proof.
  unfold df_owid_filtered, add_vaccination_rate. rewrite in_map_iff. split.
  - intros [r [<- Hr]]. apply fillna_owid_In in Hr.
    destruct Hr as [r0 [Hr0 ->]]. unfold filter_owid in Hr0.
    apply filter_In in Hr0. destruct Hr0 as [Hr0 Hsel].
    apply isin_In in Hsel. exists r0. simpl. auto 12.
  - intros [r0 [Hr0 [Hsel [_ [_ [_ [_ [_ [Hrate Hrow]]]]]]]]].
    exists (r_row v). split.
    + destruct v as [row rate]. simpl in *. now rewrite Hrate.
    + rewrite Hrow. apply fillna_owid_In. exists r0. split; [ | reflexivity ].
      unfold filter_owid. apply filter_In. split; [ assumption | ].
      now apply isin_In.
Qed.

(** A panel row is a row of the three-way merge, filled. *)
Lemma combined_source (p : panel_row) :
  In p (df_combined confirmed deaths recovered owid countries) ->
  exists r0, In r0 (df_jhu confirmed deaths recovered) /\
    panel_key p = jhu_key r0 /\
    p_total_cases p = fillna 0 (total_cases r0) /\
    p_total_deaths p = fillna 0 (total_deaths r0) /\
    p_total_recovered p = fillna 0 (total_recovered r0).
Proof.
  intros Hp. apply combined_In in Hp. destruct Hp as [m [o [Hm [-> _]]]].
  apply metrics_In, sorted_In in Hm.
  destruct Hm as [r0 [Hr0 [Ec [Ed [Htc [Htd Htr]]]]]].
  unfold df_jhu_selected in Hr0. apply filter_jhu_In in Hr0.
  destruct Hr0 as [Hr0 _]. exists r0. split; [ exact Hr0 | ].
  destruct o; unfold panel_key, jhu_key; simpl; rewrite Ec, Ed; auto.
Qed.

(** The death rate of a panel row, from its own two counts. *)
Lemma combined_death_rate (p : panel_row) :
  In p (df_combined confirmed deaths recovered owid countries) ->
  p_death_rate p
  = fdiv (of_cell (p_total_deaths p)) (of_cell (replace 0 1 (p_total_cases p))).
Proof.
  intros Hp. apply combined_In in Hp. destruct Hp as [m [o [Hm [-> _]]]].
  pose proof (add_metrics_death_rate _ _ Hm) as Hrate.
  destruct o; simpl; exact Hrate.
Qed.

(** The rate columns of a panel row: those of a rate record of its pair,
    or all unset. *)
Lemma combined_rate_columns (p : panel_row) :
  In p (df_combined confirmed deaths recovered owid countries) ->
  (exists v, In v (df_owid_filtered owid countries) /\
     rated_key v = panel_key p /\
     p_total_vaccinations p = total_vaccinations (r_row v) /\
     p_people_fully_vaccinated p = people_fully_vaccinated (r_row v) /\
     p_population p = population (r_row v) /\
     p_iso_code p = iso_code (r_row v) /\
     p_vaccination_rate p = vaccination_rate v)
  \/ ((forall v, In v (df_owid_filtered owid countries) ->
         rated_key v <> panel_key p) /\
      p_total_vaccinations p = None /\ p_people_fully_vaccinated p = None /\
      p_population p = None /\ p_iso_code p = None /\
      p_vaccination_rate p = NaN).
Proof.
  unfold df_combined. rewrite merge_left_In.
  intros [m [Hm [[Hnone ->] | [v [Hv [Hk ->]]]]]].
  - right. split; [ | simpl; auto ].
    intros v Hv Hk. rewrite join_owid_key in Hk.
    assert (Hin : In v (matches metrics_key rated_key m
                          (df_owid_filtered owid countries)))
      by (apply matches_In; auto).
    rewrite Hnone in Hin. destruct Hin.
  - left. exists v. rewrite join_owid_key. simpl. auto 10.
Qed.
End Rows.

End Provenance.
Import Provenance.

(** X5.  The recoveries are joined on the left and then filled: a panel
    row whose pair has no recoveries record carries total_recovered = 0, and
    a row whose pair has some carries the value of one of them, NaN filled
    with 0. *)
Theorem recovered_of_panel_row :
  forall (confirmed deaths recovered : list dated_row) (owid : list owid_row)
    (countries : list string) (p : panel_row),
    In p (df_combined confirmed deaths recovered owid countries) ->
    (~ In (panel_key p) (map series_key (select recovered)) ->
     p_total_recovered p = Some 0)
    /\ (In (panel_key p) (map series_key (select recovered)) ->
        exists b, In b (select recovered) /\ series_key b = panel_key p /\
                  p_total_recovered p = fillna 0 (s_value b)).
Proof.
  intros confirmed deaths recovered owid countries p Hp.
  apply combined_source in Hp.
  destruct Hp as [r0 [Hr0 [Hk [_ [_ Hrec]]]]].
  unfold df_jhu in Hr0. apply merge_left_In in Hr0.
  destruct Hr0 as [cd [_ [[Hnone ->] | [b [Hb [Hkb ->]]]]]].
  - split.
    + intros _. rewrite Hrec. reflexivity.
    + intros Hin. exfalso. apply in_map_iff in Hin.
      destruct Hin as [b [Hkb Hb]].
      assert (Hm : In b (matches cd_key series_key cd (select recovered))).
      { apply matches_In. split; [ exact Hb | ].
        rewrite Hkb, Hk. apply join_recovered_key. }
      rewrite Hnone in Hm. destruct Hm.
  - split.
    + intros Hout. exfalso. apply Hout. apply in_map_iff. exists b.
      split; [ | exact Hb ]. rewrite Hkb, Hk. symmetry.
      apply join_recovered_key.
    + intros _. exists b. split; [ exact Hb | ]. split; [ | exact Hrec ].
      rewrite Hkb, Hk. symmetry. apply join_recovered_key.
Qed.

(** Country A: recoveries are known for the first day only. *)
Lemma recovered_of_panel_row_witness :
  In (nth 1 panel_A2 blank_row) panel_A2
  /\ ~ In (panel_key (nth 1 panel_A2 blank_row))
         (map series_key (select recovered_A_day1))
  /\ p_total_recovered (nth 1 panel_A2 blank_row) = Some 0.
Proof.
  assert (Hin : In (nth 1 panel_A2 blank_row) panel_A2)
    by (vm_compute; right; left; reflexivity).
  assert (Hout : ~ In (panel_key (nth 1 panel_A2 blank_row))
                     (map series_key (select recovered_A_day1)))
    by (vm_compute; intros [H | []]; discriminate).
  split; [ exact Hin | ]. split; [ exact Hout | ].
  exact (proj1 (recovered_of_panel_row (dated cases_A) (dated deaths_A)
                  recovered_A_day1 owid_A2 ["A"] _ Hin) Hout).
Defined.

(** X6.  A panel row whose pair has a rate record with a typed location
    carries the columns of such a record: its population and region code as
    they are, its two vaccination totals with NaN filled by zero; neither
    total is unset. *)
Theorem matched_row_has_vaccinations :
  forall (confirmed deaths recovered : list dated_row) (owid : list owid_row)
    (countries : list string) (p : panel_row),
    In p (df_combined confirmed deaths recovered owid countries) ->
    (exists o, In o owid /\ In (location o) countries /\ owid_key o = panel_key p) ->
    exists o, In o owid /\ In (location o) countries /\ owid_key o = panel_key p /\
      p_total_vaccinations p = fillna 0 (total_vaccinations o) /\
      p_people_fully_vaccinated p = fillna 0 (people_fully_vaccinated o) /\
      p_population p = population o /\
      p_iso_code p = iso_code o /\
      p_total_vaccinations p <> None /\ p_people_fully_vaccinated p <> None.
Proof.
  intros confirmed deaths recovered owid countries p Hp [o [Ho [Hsel Hk]]].
  apply combined_rate_columns in Hp.
  destruct Hp as [[v [Hv [Hkv [Htv [Hpf [Hpop [Hiso _]]]]]]] | [Hnone _]].
  - apply owid_filtered_row in Hv.
    destruct Hv as [r0 [Hr0 [Hsel0 [Hk0 [Etv [Epf [Epop [Eiso _]]]]]]]].
    exists r0. rewrite Htv, Hpf, Hpop, Hiso, Etv, Epf, Epop, Eiso.
    repeat split; auto; try congruence.
    + destruct (total_vaccinations r0); discriminate.
    + destruct (people_fully_vaccinated r0); discriminate.
  - exfalso.
    set (row := mk_owid (location o) (o_date o) (fillna 0 (total_vaccinations o))
                  (fillna 0 (people_fully_vaccinated o)) (population o)
                  (iso_code o)).
    apply (Hnone (mk_rated row (vaccination_rate_of row))); [ | exact Hk ].
    apply owid_filtered_row. exists o. simpl. auto 12.
Qed.

(** The first day of country A, whose OWID record lacks the total. *)
Lemma matched_row_has_vaccinations_witness :
  In (nth 0 panel_A2 blank_row) panel_A2
  /\ p_total_vaccinations (nth 0 panel_A2 blank_row) <> None.
Proof.
  assert (Hin : In (nth 0 panel_A2 blank_row) panel_A2)
    by (vm_compute; left; reflexivity).
  split; [ exact Hin | ].
  destruct (matched_row_has_vaccinations (dated cases_A) (dated deaths_A)
              recovered_A_day1 owid_A2 ["A"] _ Hin)
    as [o [_ [_ [_ [_ [_ [_ [_ [H _]]]]]]]]].
  - exists (nth 0 owid_A2 (mk_owid "" 0 None None None None)).
    split; [ vm_compute; left; reflexivity | ].
    split; [ vm_compute; left; reflexivity | vm_compute; reflexivity ].
  - exact H.
Defined.

(** ** Ranges of the two rates *)

Module Ranges.

Lemma quotient_in_unit (a b : Z) :
  0 <= a <= b -> 0 < b ->
  (0 <= Qred (inject_Z a / inject_Z b))%Q /\ (Qred (inject_Z a / inject_Z b) <= 1)%Q.
Proof.
  intros Ha Hb. rewrite Qred_correct.
  assert (Hb' : (0 < inject_Z b)%Q) by (unfold Qlt; simpl; lia).
  split.
  - apply Qle_shift_div_l; [ exact Hb' | ].
    rewrite Qmult_0_l. unfold Qle. simpl. lia.
  - apply Qle_shift_div_r; [ exact Hb' | ].
    rewrite Qmult_1_l. rewrite <- Zle_Qle. lia.
Qed.

Lemma percentage_in_range (a b : Z) :
  0 <= a <= b -> 0 < b ->
  (0 <= Qred (inject_Z a / inject_Z b * inject_Z 100))%Q
  /\ (Qred (inject_Z a / inject_Z b * inject_Z 100) <= inject_Z 100)%Q.
Proof.
  intros Ha Hb. rewrite Qred_correct.
  destruct (quotient_in_unit a b Ha Hb) as [H0 H1].
  rewrite Qred_correct in H0, H1.
  assert (H100 : (0 <= inject_Z 100)%Q) by (unfold Qle; simpl; lia).
  split.
  - apply Qmult_le_0_compat; assumption.
  - rewrite <- (Qmult_1_l (inject_Z 100)) at 2.
    apply Qmult_le_compat_r; assumption.
Qed.

End Ranges.
Import Ranges.

(** X7.  In a panel row whose deaths are between zero and its cases, the
    death rate is a number between 0 and 1, the row without cases
    included. *)
Theorem death_rate_in_unit_interval :
  forall (confirmed deaths recovered : list dated_row) (owid : list owid_row)
    (countries : list string) (p : panel_row) (c d : Z),
    In p (df_combined confirmed deaths recovered owid countries) ->
    p_total_cases p = Some c -> p_total_deaths p = Some d ->
    0 <= d <= c ->
    exists q : Q, p_death_rate p = Fin q /\ (0 <= q)%Q /\ (q <= 1)%Q.
Proof.
  intros confirmed deaths recovered owid countries p c d Hp Hc Hd Hdc.
  apply combined_death_rate in Hp. rewrite Hc, Hd in Hp.
  unfold replace in Hp. destruct (Z.eqb c 0) eqn:E.
  - apply Z.eqb_eq in E. subst c. assert (d = 0) by lia. subst d.
    exists (Qred (inject_Z 0 / inject_Z 1)). split; [ exact Hp | ].
    apply quotient_in_unit; lia.
  - apply Z.eqb_neq in E. unfold of_cell, fdiv in Hp.
    rewrite Qzerob_inject_Z in Hp.
    assert (E' : Z.eqb c 0 = false) by now apply Z.eqb_neq.
    rewrite E' in Hp.
    exists (Qred (inject_Z d / inject_Z c)). split; [ exact Hp | ].
    apply quotient_in_unit; lia.
Qed.

(** The second day of country A: 2 deaths for 15 cases. *)
Lemma death_rate_in_unit_interval_witness :
  In day2_A panel_A
  /\ exists q : Q, p_death_rate day2_A = Fin q /\ (0 <= q)%Q /\ (q <= 1)%Q.
Proof.
  assert (Hin : In day2_A panel_A) by (vm_compute; right; left; reflexivity).
  split; [ exact Hin | ].
  apply (death_rate_in_unit_interval (dated cases_A) (dated deaths_A)
           (dated recovered_none) owid_A ["A"] day2_A 15 2 Hin);
    [ vm_compute; reflexivity | vm_compute; reflexivity | lia ].
Defined.

(** X8.  In a panel row with a positive population and a number of fully
    vaccinated people between zero and that population, the vaccination
    rate is a number between 0 and 100. *)
Theorem vaccination_rate_in_percent_range :
  forall (confirmed deaths recovered : list dated_row) (owid : list owid_row)
    (countries : list string) (p : panel_row) (n v : Z),
    In p (df_combined confirmed deaths recovered owid countries) ->
    p_population p = Some n -> p_people_fully_vaccinated p = Some v ->
    0 < n -> 0 <= v <= n ->
    exists q : Q,
      p_vaccination_rate p = Fin q /\ (0 <= q)%Q /\ (q <= inject_Z 100)%Q.
Proof.
  intros confirmed deaths recovered owid countries p n v Hp Hn Hv Hpos Hvn.
  apply combined_rate_columns in Hp.
  destruct Hp as [[r [Hr [_ [_ [Hpf [Hpop [_ Hrate]]]]]]] | [_ [_ [_ [Hnone _]]]]];
    [ | congruence ].
  apply owid_filtered_row in Hr.
  destruct Hr as [r0 [_ [_ [_ [_ [_ [_ [_ [Hof _]]]]]]]]].
  rewrite Hv in Hpf. symmetry in Hpf.
  pose proof (vaccination_rate_of_cases (r_row r) v Hpf) as Hcases.
  rewrite <- Hpop, Hn in Hcases.
  assert (E : Z.eqb n 0 = false) by (apply Z.eqb_neq; lia).
  rewrite E in Hcases.
  exists (Qred (inject_Z v / inject_Z n * inject_Z 100)).
  split; [ congruence | ].
  apply percentage_in_range; lia.
Qed.

(** Country A on its second day: 200 of 1000 people. *)
Lemma vaccination_rate_in_percent_range_witness :
  In (nth 1 panel_A2 blank_row) panel_A2
  /\ exists q : Q,
       p_vaccination_rate (nth 1 panel_A2 blank_row) = Fin q
       /\ (0 <= q)%Q /\ (q <= inject_Z 100)%Q.
Proof.
  assert (Hin : In (nth 1 panel_A2 blank_row) panel_A2)
    by (vm_compute; right; left; reflexivity).
  split; [ exact Hin | ].
  apply (vaccination_rate_in_percent_range (dated cases_A) (dated deaths_A)
           recovered_A_day1 owid_A2 ["A"] _ 1000 200 Hin);
    [ vm_compute; reflexivity | vm_compute; reflexivity | lia | lia ].
Defined.

(** ** Daily differences add up *)

Module Telescope.

Lemma last_cons {X : Type} (a : X) (l : list X) (d : X) :
  last (a :: l) d = last l a.
Proof.
  revert a d. induction l as [ | b l IH ]; intros a d; [ reflexivity | ].
  change (last (a :: b :: l) d) with (last (b :: l) d).
  now rewrite !IH.
Qed.

Lemma last_map {X Y : Type} (f : X -> Y) (l : list X) (d : X) :
  last (map f l) (f d) = f (last l d).
Proof.
  revert d. induction l as [ | a l IH ]; intros d; [ reflexivity | ].
  change (map f (a :: l)) with (f a :: map f l).
  now rewrite !last_cons, IH.
Qed.

Lemma hd_map {X Y : Type} (f : X -> Y) (l : list X) (d : X) :
  hd (f d) (map f l) = f (hd d l).
Proof. now destruct l. Qed.

Lemma filter_map_comm {X Y : Type} (f : X -> Y) (p : Y -> bool) (l : list X) :
  filter p (map f l) = map f (filter (fun x => p (f x)) l).
Proof.
  induction l as [ | a l IH ]; simpl; [ reflexivity | ].
  destruct (p (f a)); simpl; now rewrite IH.
Qed.

Section Group.
Variable g : string.

(** Past a first row of the group, the differences of the group add up to
    its last value minus the value remembered. *)
Lemma sum_from (rows : list (string * cell)) :
  Forall (fun r => snd r <> None) rows ->
  forall (last : string -> option cell) (p : Z),
    last g = Some (Some p) ->
    sum_in g rows (map (fillna 0) (groupby_diff last rows))
    = cell_value (snd (List.last (of_group g rows) (g, Some p))) - p.
Proof.
  induction 1 as [ | [g1 v1] rows Hv _ IH ]; intros last p Hl.
  - simpl. lia.
  - simpl in Hv. destruct v1 as [z1 | ]; [ | congruence ].
    cbn [groupby_diff map sum_in fst of_group filter].
    destruct (String.eqb g1 g) eqn:E.
    + apply String.eqb_eq in E. subst g1. rewrite Hl.
      rewrite (IH _ z1) by now rewrite String.eqb_refl.
      rewrite last_cons. fold (of_group g rows). simpl. lia.
    + rewrite (IH _ p).
      * fold (of_group g rows). lia.
      * rewrite String.eqb_sym, E. exact Hl.
Qed.

(** From the start, they add up to its last value minus its first. *)
Lemma sum_whole (rows : list (string * cell)) :
  Forall (fun r => snd r <> None) rows ->
  forall (last : string -> option cell) (d : string * cell),
    last g = None ->
    sum_in g rows (map (fillna 0) (groupby_diff last rows))
    = cell_value (snd (List.last (of_group g rows) d))
      - cell_value (snd (hd d (of_group g rows))).
Proof.
  induction 1 as [ | [g1 v1] rows Hv Hrows IH ]; intros last d Hl.
  - simpl. lia.
  - simpl in Hv. destruct v1 as [z1 | ]; [ | congruence ].
    cbn [groupby_diff map sum_in fst of_group filter].
    destruct (String.eqb g1 g) eqn:E.
    + apply String.eqb_eq in E. subst g1. rewrite Hl.
      rewrite (sum_from rows Hrows _ z1) by now rewrite String.eqb_refl.
      rewrite last_cons. fold (of_group g rows). simpl. lia.
    + rewrite (IH _ d).
      * fold (of_group g rows). lia.
      * rewrite String.eqb_sym, E. exact Hl.
Qed.
End Group.

(** The sum of a daily column over the rows of one country, read off the
    frame and the column. *)
Lemma sum_of_column (name : string) (pick : cell * cell -> cell)
  (col : jhu_row -> cell) (df : list jhu_row) :
  forall ncd : list (cell * cell),
    length ncd = length df ->
    fold_right Z.add 0
      (map (fun x : jhu_row * (cell * cell) => cell_value (pick (snd x)))
         (filter (fun x => String.eqb (country (fst x)) name) (combine df ncd)))
    = sum_in name (map (fun r => (country r, col r)) df) (map pick ncd).
Proof.
  induction df as [ | r df IH ]; intros [ | x ncd ] Hlen; simpl in *;
    try discriminate; [ reflexivity | ].
  destruct (String.eqb (country r) name); simpl; rewrite IH by lia; lia.
Qed.

End Telescope.
Import Telescope.

Lemma column_sum (name : string) (col : jhu_row -> cell) (df : list jhu_row)
  (d0 : jhu_row) :
  Forall (fun r => col r <> None) df ->
  sum_in name (map (fun r => (country r, col r)) df) (daily col df)
  = cell_value (col (last (filter (fun r => String.eqb (country r) name) df) d0))
    - cell_value (col (hd d0 (filter (fun r => String.eqb (country r) name) df))).
Proof.
  intros Hset. unfold daily.
  assert (Hrows : Forall (fun r : string * cell => snd r <> None)
                    (map (fun r => (country r, col r)) df)).
  { apply Forall_forall. intros r Hr. apply in_map_iff in Hr.
    destruct Hr as [r0 [<- Hr0]]. simpl.
    rewrite Forall_forall in Hset. now apply Hset. }
  rewrite (sum_whole name _ Hrows (fun _ => None) (country d0, col d0) eq_refl).
  unfold of_group.
  rewrite (filter_map_comm (fun r => (country r, col r))
             (fun r => String.eqb (fst r) name)).
  simpl.
  rewrite (last_map (fun r => (country r, col r))),
    (hd_map (fun r => (country r, col r))).
  reflexivity.
Qed.

(** X9.  Over the rows of one country, in the frame the metrics are
    computed on, the daily new cases add up to the cumulative cases of the
    country's last row minus those of its first row, and the daily new
    deaths to the same difference of the cumulative deaths. *)
Theorem daily_deltas_add_up :
  forall (confirmed deaths recovered : list dated_row) (countries : list string)
    (name : string) (d : metrics_row),
    let M := df_jhu_metrics confirmed deaths recovered countries in
    let rows := filter (fun m => String.eqb (country (m_row m)) name) M in
    sum_new_cases name M
    = cell_value (total_cases (m_row (last rows d)))
      - cell_value (total_cases (m_row (hd d rows)))
    /\ sum_new_deaths name M
       = cell_value (total_deaths (m_row (last rows d)))
         - cell_value (total_deaths (m_row (hd d rows))).
Proof.
  intros confirmed deaths recovered countries name d M rows.
  set (F := df_jhu_sorted confirmed deaths recovered countries).
  assert (HM : map m_row M = F) by apply metrics_rows.
  assert (Hrows : map m_row rows
                  = filter (fun r => String.eqb (country r) name) F).
  { unfold rows. rewrite <- HM.
    now rewrite (filter_map_comm m_row (fun r => String.eqb (country r) name)). }
  assert (Hset : forall r, In r F ->
             total_cases r <> None /\ total_deaths r <> None).
  { intros r Hr. destruct (sorted_counts_set _ _ _ _ _ Hr)
      as [c [x [_ [Hc [Hd _]]]]]. split; congruence. }
  assert (Hlen : length (combine (daily total_cases F) (daily total_deaths F))
                 = length F)
    by (rewrite length_combine, !daily_length; lia).
  assert (Hlast : m_row (last rows d)
                  = last (filter (fun r => String.eqb (country r) name) F)
                      (m_row d))
    by (rewrite <- Hrows; symmetry; apply last_map).
  assert (Hhd : m_row (hd d rows)
                = hd (m_row d) (filter (fun r => String.eqb (country r) name) F))
    by (rewrite <- Hrows; symmetry; apply hd_map).
  rewrite Hlast, Hhd. split.
  - rewrite <- (column_sum name total_cases F (m_row d))
      by (apply Forall_forall; intros r Hr; now apply Hset).
    unfold sum_new_cases, M, df_jhu_metrics, add_metrics. fold F.
    rewrite (filter_map_comm (fun x => add_columns (fst x) (snd x))
               (fun m => String.eqb (country (m_row m)) name)).
    rewrite map_map. simpl.
    rewrite (sum_of_column name fst total_cases F _ Hlen).
    f_equal. apply combine_map_fst. now rewrite !daily_length.
  - rewrite <- (column_sum name total_deaths F (m_row d))
      by (apply Forall_forall; intros r Hr; now apply Hset).
    unfold sum_new_deaths, M, df_jhu_metrics, add_metrics. fold F.
    rewrite (filter_map_comm (fun x => add_columns (fst x) (snd x))
               (fun m => String.eqb (country (m_row m)) name)).
    rewrite map_map. simpl.
    rewrite (sum_of_column name snd total_deaths F _ Hlen).
    f_equal. apply combine_map_snd. now rewrite !daily_length.
Qed.

(** Country A between its two days: 5 new cases, 1 new death. *)
Example daily_deltas_add_up_A :
  sum_new_cases "A" metrics_A = 5 /\ sum_new_deaths "A" metrics_A = 1.
Proof. split; vm_compute; reflexivity. Qed.

(** ** The selection *)

Module SelectionFacts.

Lemma isin_ext (x : string) (l l' : list string) :
  (forall y, In y l <-> In y l') -> isin x l = isin x l'.
Proof.
  intros H. destruct (isin x l) eqn:E, (isin x l') eqn:E'; try reflexivity.
  - apply isin_In, H, isin_In in E. congruence.
  - apply isin_In, H, isin_In in E'. congruence.
Qed.

Lemma countries_jhu_ext (l l' : list string) :
  (forall y, In y l <-> In y l') ->
  forall y, In y (countries_jhu l) <-> In y (countries_jhu l').
Proof.
  intros H y. unfold countries_jhu. rewrite !in_map_iff.
  split; intros [c [Hc Hin]]; exists c; (split; [ exact Hc | now apply H ]).
Qed.

Lemma lstrip_head (l : list ascii) : edge_space (lstrip l) = false.
Proof.
  induction l as [ | c l IH ]; simpl; [ reflexivity | ].
  destruct (is_space c) eqn:E; [ exact IH | simpl; exact E ].
Qed.

Lemma lstrip_keeps_last (l : list ascii) (a : ascii) :
  is_space a = false -> exists pre, lstrip (l ++ [a]) = pre ++ [a].
Proof.
  intros Ha. induction l as [ | c l IH ]; simpl.
  - rewrite Ha. now exists [].
  - destruct (is_space c); [ exact IH | now exists (c :: l) ].
Qed.

Lemma rstrip_head (l : list ascii) :
  edge_space l = false -> edge_space (rstrip l) = false.
Proof.
  destruct l as [ | a l ]; intros H; [ reflexivity | ].
  simpl in H. unfold rstrip. simpl.
  destruct (lstrip_keeps_last (rev l) a H) as [pre ->].
  rewrite rev_app_distr. simpl. exact H.
Qed.

Lemma rstrip_last (l : list ascii) : edge_space (rev (rstrip l)) = false.
Proof. unfold rstrip. rewrite rev_involutive. apply lstrip_head. Qed.

Lemma strip_trimmed (s : string) : trimmed (strip s) = true.
Proof.
  unfold trimmed, strip. rewrite list_ascii_of_string_of_list_ascii.
  rewrite rstrip_head by apply lstrip_head. now rewrite rstrip_last.
Qed.

Lemma split_length (sep : ascii) (s : string) :
  length (split sep s) = S (count_char sep s).
Proof.
  induction s as [ | c s IH ]; simpl; [ reflexivity | ].
  destruct (Ascii.eqb c sep); simpl.
  - now rewrite IH.
  - destruct (split sep s) as [ | w ws ]; simpl in *; [ discriminate | exact IH ].
Qed.

End SelectionFacts.
Import SelectionFacts.

(** X10.  Only the set of names typed matters: two selections with the same
    names, in any order and with any repetition, give the same panel. *)
Theorem panel_depends_on_name_set :
  forall (confirmed deaths recovered : list dated_row) (owid : list owid_row)
    (countries countries' : list string),
    (forall name, In name countries <-> In name countries') ->
    df_combined confirmed deaths recovered owid countries
    = df_combined confirmed deaths recovered owid countries'.
Proof.
  intros confirmed deaths recovered owid countries countries' H.
  assert (H1 : df_jhu_selected confirmed deaths recovered countries
               = df_jhu_selected confirmed deaths recovered countries').
  { unfold df_jhu_selected, filter_jhu. apply filter_ext. intros r.
    apply isin_ext. now apply countries_jhu_ext. }
  assert (H2 : filter_owid owid countries = filter_owid owid countries').
  { unfold filter_owid. apply filter_ext. intros r. now apply isin_ext. }
  unfold df_combined, df_jhu_filtered, df_jhu_metrics, df_jhu_sorted,
    df_owid_filtered.
  now rewrite H1, H2.
Qed.

(** A name typed twice, and the names in another order. *)
Lemma panel_depends_on_name_set_witness :
  df_combined (dated cases_AB) (dated deaths_AB) [] owid_A2 ["B"; "A"; "B"]
  = df_combined (dated cases_AB) (dated deaths_AB) [] owid_A2 ["A"; "B"].
Proof.
  apply (panel_depends_on_name_set (dated cases_AB) (dated deaths_AB) []
           owid_A2 ["B"; "A"; "B"] ["A"; "B"]).
  intros name. simpl. tauto.
Defined.

(** X11.  Every name the selection is read into, typed or default, has no
    whitespace at either end. *)
Theorem selected_names_are_trimmed :
  forall (user_input name : string),
    In name (read_countries user_input) -> trimmed name = true.
Proof.
  intros user_input name H. unfold read_countries in H.
  destruct user_input as [ | c s ].
  - simpl in H. destruct H as [ <- | [ <- | [ <- | [] ] ] ]; reflexivity.
  - apply in_map_iff in H. destruct H as [w [<- _]]. apply strip_trimmed.
Qed.

(** Two names typed with blanks around them. *)
Lemma selected_names_are_trimmed_witness :
  In "India" (read_countries "  Kenya ,  India  ") /\ trimmed "India" = true.
Proof.
  assert (H : In "India" (read_countries "  Kenya ,  India  "))
    by (vm_compute; right; left; reflexivity).
  split; [ exact H | ].
  exact (selected_names_are_trimmed "  Kenya ,  India  " "India" H).
Defined.

(** X12.  A line typed at the prompt is read into one name more than it has
    commas, empty names included; the empty line into the three default
    names.  The selection is never empty. *)
Theorem selection_size :
  forall user_input : string,
    length (read_countries user_input)
    = (if String.eqb user_input "" then 3
       else S (count_char ","%char user_input))%nat
    /\ read_countries user_input <> [].
Proof.
  intros user_input.
  assert (H : length (read_countries user_input)
              = (if String.eqb user_input "" then 3
                 else S (count_char ","%char user_input))%nat).
  { destruct user_input as [ | c s ]; [ reflexivity | ].
    unfold read_countries. now rewrite length_map, split_length. }
  split; [ exact H | ].
  intros E. rewrite E in H. simpl in H.
  destruct (String.eqb user_input ""); discriminate.
Qed.

(** X13.  The country of every panel row is a name as typed, or the name
    "United States" when "US" was typed: no other country enters the
    panel. *)
Theorem panel_countries_are_selected :
  forall (confirmed deaths recovered : list dated_row) (owid : list owid_row)
    (countries : list string) (p : panel_row),
    In p (df_combined confirmed deaths recovered owid countries) ->
    In (p_country p) countries
    \/ (p_country p = "United States" /\ In "US" countries).
Proof.
  intros confirmed deaths recovered owid countries p Hp.
  apply combined_country in Hp. destruct Hp as [Hp _].
  unfold countries_jhu in Hp. apply in_map_iff in Hp.
  destruct Hp as [c [Hc Hin]]. rewrite jhu_to_owid_get in Hc.
  destruct (String.eqb c "US") eqn:E.
  - apply String.eqb_eq in E. subst c. right. auto.
  - left. now rewrite <- Hc.
Qed.

(** The first row of the panel of A and B. *)
Lemma panel_countries_are_selected_witness :
  In (nth 0 (df_combined (dated cases_AB) (dated deaths_AB) [] owid_A2 ["A"])
        blank_row)
    (df_combined (dated cases_AB) (dated deaths_AB) [] owid_A2 ["A"])
  /\ (In (p_country
            (nth 0 (df_combined (dated cases_AB) (dated deaths_AB) [] owid_A2
                      ["A"]) blank_row)) ["A"]
      \/ (p_country
            (nth 0 (df_combined (dated cases_AB) (dated deaths_AB) [] owid_A2
                      ["A"]) blank_row) = "United States"
          /\ In "US" ["A"])).
Proof.
  assert (H : In (nth 0 (df_combined (dated cases_AB) (dated deaths_AB) []
                           owid_A2 ["A"]) blank_row)
                (df_combined (dated cases_AB) (dated deaths_AB) [] owid_A2 ["A"]))
    by (vm_compute; left; reflexivity).
  split; [ exact H | ].
  exact (panel_countries_are_selected (dated cases_AB) (dated deaths_AB) []
           owid_A2 ["A"] _ H).
Defined.

(** ** When the cell raises *)



(** ** The cells that read the panel *)

Module ConsumerFacts.

Lemma fold_step_from (l : list Z) :
  forall m0 : Z,
    exists m, fold_left step l (Some m0) = Some m
              /\ m0 <= m /\ (forall x, In x l -> x <= m)
              /\ (m = m0 \/ In m l).
Proof.
  induction l as [ | x l IH ]; intros m0; simpl.
  - exists m0. repeat split; auto; try lia.
  - destruct (IH (Z.max m0 x)) as [m [Hf [Hle [Hall Hin]]]].
    exists m. split; [ exact Hf | ]. split; [ lia | ]. split.
    + intros y [ <- | Hy ]; [ lia | now apply Hall ].
    + destruct Hin as [-> | Hin]; [ | right; now right ].
      destruct (Z.max_spec m0 x) as [[_ ->] | [_ ->]]; [ right | left ]; auto.
Qed.

(** The greatest date of a frame: none for the empty frame, otherwise one
    of its dates, above all others. *)
Lemma date_max_spec (l : list Z) :
  match date_max l with
  | None => l = []
  | Some m => In m l /\ forall x, In x l -> x <= m
  end.
Proof.
  unfold date_max. destruct l as [ | x l ]; [ reflexivity | ].
  simpl. destruct (fold_step_from l x) as [m [-> [Hle [Hall Hin]]]].
  split.
  - destruct Hin as [-> | Hin]; [ now left | now right ].
  - intros y [ <- | Hy ]; [ exact Hle | now apply Hall ].
Qed.

Lemma index_cases {X : Type} (l : list X) (i : nat) :
  ((length l <= i)%nat /\ index l i = inl IndexError)
  \/ ((i < length l)%nat /\ exists x, index l i = inr x).
Proof.
  unfold index. destruct (nth_error l i) as [x | ] eqn:E.
  - right. split; [ apply nth_error_Some; congruence | now exists x ].
  - left. split; [ now apply nth_error_None | reflexivity ].
Qed.

(** The report, by the size of the panel and of the selection. *)
Lemma insights_cases (strftime : Z -> string) (df : list panel_row)
  (countries : list string) :
  match df with
  | [] => insights strftime df countries = inl ValueError
  | _ :: _ =>
      if (length countries <? 3)%nat
      then insights strftime df countries = inl IndexError
      else exists text, insights strftime df countries = inr text
  end.
Proof.
  unfold insights, data_up_to.
  pose proof (date_max_spec (map p_date df)) as Hmax.
  destruct df as [ | p df ]; [ reflexivity | ].
  destruct (date_max (map p_date (p :: df))) as [m | ]; [ | discriminate ].
  simpl and_then at 1.
  destruct countries as [ | a [ | b [ | c rest ] ] ]; simpl;
    try reflexivity.
  eexists. reflexivity.
Qed.

End ConsumerFacts.
Import ConsumerFacts.

(** X15.  The rows charted as the latest are the rows of the panel that
    carry its greatest date; there are some as soon as the panel has a row,
    and a country whose series ends before that date has none. *)
Theorem latest_data_is_last_day :
  forall (df : list panel_row),
    (latest_data df = [] <-> df = [])
    /\ forall p : panel_row,
        In p (latest_data df)
        <-> In p df /\ forall q, In q df -> p_date q <= p_date p.
Proof.
  intros df. unfold latest_data.
  pose proof (date_max_spec (map p_date df)) as Hmax.
  destruct (date_max (map p_date df)) as [m | ].
  - destruct Hmax as [Hin Hall].
    assert (Hdate : forall q, In q df -> p_date q <= m)
      by (intros q Hq; apply Hall; now apply in_map).
    apply in_map_iff in Hin. destruct Hin as [p0 [Hp0 Hin0]].
    split.
    + split.
      * intros E.
        assert (H : In p0 (filter (fun p => Z.eqb (p_date p) m) df))
          by (apply filter_In; split; [ exact Hin0 | now apply Z.eqb_eq ]).
        rewrite E in H. destruct H.
      * intros ->. destruct Hin0.
    + intros p. rewrite filter_In, Z.eqb_eq. split.
      * intros [Hp ->]. split; [ exact Hp | exact Hdate ].
      * intros [Hp Hge]. split; [ exact Hp | ].
        specialize (Hge p0 Hin0). specialize (Hdate p Hp). lia.
  - apply map_eq_nil in Hmax. subst df. split; [ tauto | ].
    intros p. split; [ intros [] | intros [[] _] ].
Qed.

(** X16.  The report cell raises ValueError when the panel is empty, since
    the greatest date is then NaT; on a panel with rows it raises IndexError
    when fewer than three names are selected, and produces its text
    otherwise. *)
Theorem insights_outcome :
  forall (strftime : Z -> string) (df : list panel_row)
    (countries : list string),
    (df = [] -> insights strftime df countries = inl ValueError)
    /\ (df <> [] -> (length countries < 3)%nat ->
        insights strftime df countries = inl IndexError)
    /\ (df <> [] -> (3 <= length countries)%nat ->
        exists text, insights strftime df countries = inr text).
Proof.
  intros strftime df countries.
  pose proof (insights_cases strftime df countries) as H.
  destruct df as [ | p df ].
  - split; [ intros _; exact H | ]. split; intros E; now destruct E.
  - split; [ discriminate | ].
    destruct (length countries <? 3)%nat eqn:E.
    + apply Nat.ltb_lt in E. split; [ intros _ _; exact H | ].
      intros _ Hge. lia.
    + apply Nat.ltb_ge in E. split; [ intros _ Hlt; lia | ].
      intros _ _. exact H.
Qed.

(** The panel of country A with one name selected. *)
Lemma insights_outcome_witness :
  panel_A <> [] /\ (length ["A"] < 3)%nat
  /\ insights show_date panel_A ["A"] = inl IndexError.
Proof.
  assert (H1 : panel_A <> []) by (vm_compute; discriminate).
  assert (H2 : (length ["A"] < 3)%nat) by (simpl; lia).
  split; [ exact H1 | ]. split; [ exact H2 | ].
  exact (proj1 (proj2 (insights_outcome show_date panel_A ["A"])) H1 H2).
Defined.

(** X17.  Read from the prompt: on a panel with rows, a typed line with
    fewer than two commas makes the report cell raise IndexError, while the
    empty line, which selects the three defaults, and any line with two
    commas or more let it produce its text. *)
Theorem report_needs_three_names :
  forall (strftime : Z -> string) (df : list panel_row) (user_input : string),
    df <> [] ->
    if String.eqb user_input "" then
      exists text, insights strftime df (read_countries user_input) = inr text
    else if (count_char ","%char user_input <? 2)%nat then
      insights strftime df (read_countries user_input) = inl IndexError
    else
      exists text, insights strftime df (read_countries user_input) = inr text.
Proof.
  intros strftime df user_input Hdf.
  pose proof (insights_cases strftime df (read_countries user_input)) as H.
  destruct df as [ | p df ]; [ contradiction | ].
  destruct user_input as [ | c s ]; [ exact H | ].
  change (String.eqb (String c s) "") with false. cbv iota.
  assert (Hlen : length (read_countries (String c s))
                 = S (count_char ","%char (String c s))).
  { unfold read_countries. now rewrite length_map, split_length. }
  rewrite Hlen in H.
  destruct (count_char ","%char (String c s) <? 2)%nat eqn:E.
  - apply Nat.ltb_lt in E.
    assert (E' : (S (count_char ","%char (String c s)) <? 3)%nat = true)
      by (apply Nat.ltb_lt; lia).
    now rewrite E' in H.
  - apply Nat.ltb_ge in E.
    assert (E' : (S (count_char ","%char (String c s)) <? 3)%nat = false)
      by (apply Nat.ltb_ge; lia).
    now rewrite E' in H.
Qed.

(** Two names typed for the panel of country A. *)
Lemma report_needs_three_names_witness :
  panel_A <> []
  /\ insights show_date panel_A (read_countries "A, B") = inl IndexError.
Proof.
  assert (H : panel_A <> []) by (vm_compute; discriminate).
  split; [ exact H | ].
  exact (report_needs_three_names show_date panel_A "A, B" H).
Defined.

(** X18.  The rows charted for one name are in the order of their dates,
    whatever the sources and the selection: each line of a chart runs
    forward in time. *)
Theorem country_data_in_date_order :
  forall (confirmed deaths recovered : list dated_row) (owid : list owid_row)
    (countries : list string) (name : string),
    StronglySorted (fun a b => p_date a <= p_date b)
      (country_data (df_combined confirmed deaths recovered owid countries) name)
    /\ forall p,
        In p (country_data
                (df_combined confirmed deaths recovered owid countries) name)
        <-> In p (df_combined confirmed deaths recovered owid countries)
            /\ p_country p = name.
Proof.
  intros confirmed deaths recovered owid countries name.
  split.
  - pose proof (merge_left_sorted metrics_key rated_key panel_key join_owid
                  join_owid_key
                  (df_jhu_filtered confirmed deaths recovered countries)
                  (df_owid_filtered owid countries)) as Hs.
    rewrite rename_is_identity in Hs at 1.
    specialize (Hs (metrics_sorted confirmed deaths recovered countries)).
    fold (df_combined confirmed deaths recovered owid countries) in Hs.
    unfold country_data.
    induction Hs as [ | x l _ IH Hx ]; simpl; [ constructor | ].
    destruct (String.eqb (p_country x) name) eqn:E; [ | exact IH ].
    constructor; [ exact IH | ].
    apply Forall_forall. intros y Hy. apply filter_In in Hy.
    destruct Hy as [Hy Ey]. rewrite Forall_forall in Hx.
    specialize (Hx y Hy). unfold ordered in Hx. apply key_leb_spec in Hx.
    destruct Hx as [Hx | [_ Hx]]; [ | exact Hx ].
    simpl in Hx. apply String.eqb_eq in E, Ey. rewrite E, Ey in Hx.
    rewrite ltb_irrefl in Hx. discriminate.
  - intros p. unfold country_data. now rewrite filter_In, String.eqb_eq.
Qed.

(** ** Daily differences, date by date *)

Module DateFacts.

Lemma ordered_same_country (a b : metrics_row) :
  ordered metrics_key a b ->
  country (m_row a) = country (m_row b) ->
  date (m_row a) <= date (m_row b).
Proof.
  unfold ordered. rewrite key_leb_spec. simpl.
  intros [H | [_ H]] E; [ | exact H ].
  rewrite E, ltb_irrefl in H. discriminate.
Qed.

Lemma same_pair (a b : metrics_row) :
  country (m_row a) = country (m_row b) ->
  date (m_row a) = date (m_row b) ->
  metrics_key a = metrics_key b.
Proof. intros Ec Ed. unfold metrics_key, jhu_key. now rewrite Ec, Ed. Qed.

End DateFacts.
Import DateFacts.

(** C2, as the cell has it.  Take a row of the frame the metrics are
    computed on that is the only row of its (country, date) pair.  Its two
    cumulative counts are set.  If its date is the first of its country,
    new_cases and new_deaths are zero.  If its country has an earlier date,
    the row just above is of the same country and carries the previous date
    of the country, and new_cases (new_deaths) is total_cases (total_deaths)
    of the row minus that of the row above, as an integer: a negative
    difference is kept as it is. *)
Theorem daily_deltas_by_date :
  forall (confirmed deaths recovered : list dated_row) (countries : list string)
    (i : nat) (m : metrics_row),
    nth_error (df_jhu_metrics confirmed deaths recovered countries) i = Some m ->
    (forall j q,
        nth_error (df_jhu_metrics confirmed deaths recovered countries) j
        = Some q ->
        metrics_key q = metrics_key m -> j = i) ->
    exists c d : Z,
      total_cases (m_row m) = Some c /\ total_deaths (m_row m) = Some d /\
      ((forall q,
           In q (df_jhu_metrics confirmed deaths recovered countries) ->
           country (m_row q) = country (m_row m) ->
           date (m_row m) <= date (m_row q)) ->
       new_cases m = Some 0 /\ new_deaths m = Some 0)
      /\
      ((exists q,
           In q (df_jhu_metrics confirmed deaths recovered countries) /\
           country (m_row q) = country (m_row m) /\
           date (m_row q) < date (m_row m)) ->
       exists (q : metrics_row) (c' d' : Z),
         nth_error (df_jhu_metrics confirmed deaths recovered countries) (pred i)
         = Some q /\
         country (m_row q) = country (m_row m) /\
         date (m_row q) < date (m_row m) /\
         (forall q',
             In q' (df_jhu_metrics confirmed deaths recovered countries) ->
             country (m_row q') = country (m_row m) ->
             date (m_row q') < date (m_row m) ->
             date (m_row q') <= date (m_row q)) /\
         total_cases (m_row q) = Some c' /\ total_deaths (m_row q) = Some d' /\
         new_cases m = Some (c - c') /\ new_deaths m = Some (d - d')).
Proof.
  intros confirmed deaths recovered countries i m Hm Hone.
  destruct (daily_deltas confirmed deaths recovered countries i m Hm)
    as [Hs [c [d [Hc [Hd [HA HB]]]]]].
  set (M := df_jhu_metrics confirmed deaths recovered countries) in *.
  assert (Hord : forall j k a b, (j < k)%nat ->
             nth_error M j = Some a -> nth_error M k = Some b ->
             ordered metrics_key a b)
    by (intros j k a b; apply (StronglySorted_nth _ M Hs)).
  exists c, d. split; [ exact Hc | ]. split; [ exact Hd | ]. split.
  - intros Hmin. destruct i as [ | j ].
    + apply HA. intros j q Hj. lia.
    + destruct (nth_error M j) as [q | ] eqn:Eq.
      2:{ exfalso. apply nth_error_None in Eq.
          assert (nth_error M (S j) <> None) by congruence.
          apply nth_error_Some in H. lia. }
      destruct (string_dec (country (m_row q)) (country (m_row m))) as [E | E].
      * exfalso.
        assert (Hle : date (m_row q) <= date (m_row m))
          by (apply ordered_same_country; [ apply (Hord j (S j)); auto | exact E ]).
        assert (Hge : date (m_row m) <= date (m_row q))
          by (apply Hmin; [ eapply nth_error_In; eauto | exact E ]).
        assert (Hk : metrics_key q = metrics_key m) by (apply same_pair; [ exact E | lia ]).
        specialize (Hone j q Eq Hk). lia.
      * apply HA. intros j' q' Hlt Hq' E'. apply E.
        destruct (Nat.eq_dec j' j) as [-> | Hne]; [ congruence | ].
        assert (H1 : ordered metrics_key q' q) by (apply (Hord j' j); auto; lia).
        assert (H2 : ordered metrics_key q m) by (apply (Hord j (S j)); auto).
        exact (key_between _ _ _ H1 H2 E').
  - intros [q0 [Hq0 [E0 Hlt0]]].
    apply In_nth_error in Hq0. destruct Hq0 as [j0 Hj0].
    assert (Hj : (j0 < i)%nat).
    { destruct (Nat.lt_trichotomy j0 i) as [H | [H | H]]; [ exact H | | ].
      - subst j0. rewrite Hm in Hj0. inversion Hj0; subst q0. lia.
      - exfalso.
        assert (Hle : date (m_row m) <= date (m_row q0))
          by (apply ordered_same_country;
              [ apply (Hord i j0); auto | now symmetry ]).
        lia. }
    destruct HB as [q [c' [d' [Hpos [Hq [E [Hle [Hc' [Hd' [Hnc Hnd]]]]]]]]]].
    { exists j0, q0. auto. }
    exists q, c', d'. split; [ exact Hq | ]. split; [ exact E | ].
    assert (Hstrict : date (m_row q) < date (m_row m)).
    { destruct (Z.eq_dec (date (m_row q)) (date (m_row m))) as [Ed | Ed];
        [ | lia ].
      specialize (Hone (pred i) q Hq (same_pair _ _ E Ed)). lia. }
    split; [ exact Hstrict | ]. split; [ | auto ].
    intros q' Hq' E' Hlt'. apply In_nth_error in Hq'. destruct Hq' as [j' Hj'].
    destruct (Nat.lt_trichotomy j' (pred i)) as [H | [H | H]].
    + apply ordered_same_country; [ apply (Hord j' (pred i)); auto | congruence ].
    + subst j'. rewrite Hq in Hj'. inversion Hj'; subst q'. lia.
    + exfalso. destruct (Nat.eq_dec j' i) as [-> | Hne].
      * rewrite Hm in Hj'. inversion Hj'; subst q'. lia.
      * assert (Hle' : date (m_row m) <= date (m_row q'))
          by (apply ordered_same_country;
              [ apply (Hord i j'); auto; lia | now symmetry ]).
        lia.
Qed.

(** Country A revised from 100 cases to 90: the second day is the only row
    of its pair, the first day is earlier, and new_cases is -10. *)
Lemma daily_deltas_by_date_witness :
  nth_error metrics_revised 1 = Some revised_day2
  /\ (forall j q, nth_error metrics_revised j = Some q ->
                  metrics_key q = metrics_key revised_day2 -> j = 1%nat)
  /\ new_cases revised_day2 = Some (-10)
  /\ new_deaths revised_day2 = Some 1.
Proof.
  assert (H2 : nth_error metrics_revised 1 = Some revised_day2)
    by (vm_compute; reflexivity).
  assert (Hone : forall j q, nth_error metrics_revised j = Some q ->
                   metrics_key q = metrics_key revised_day2 -> j = 1%nat).
  { intros [ | [ | j ] ] q Hq Hk.
    - vm_compute in Hq. inversion Hq; subst q. vm_compute in Hk. discriminate.
    - reflexivity.
    - vm_compute in Hq. destruct j; discriminate. }
  split; [ exact H2 | ]. split; [ exact Hone | ].
  destruct (daily_deltas_by_date (dated cases_revised) (dated deaths_A)
              (dated recovered_none) ["A"] 1%nat revised_day2 H2 Hone)
    as [c [d [Hc [Hd [_ Hrest]]]]].
  destruct Hrest as [q [c' [d' [Hq [_ [_ [_ [Hc' [Hd' [Hnc Hnd]]]]]]]]]].
  - exists revised_day1. split; [ vm_compute; left; reflexivity | ].
    split; [ vm_compute; reflexivity | vm_compute; reflexivity ].
  - assert (Eq : q = revised_day1).
    { change (nth_error metrics_revised 0 = Some q) in Hq.
      assert (H1 : nth_error metrics_revised 0 = Some revised_day1)
        by (vm_compute; reflexivity).
      congruence. }
    subst q.
    assert (c = 90) by (vm_compute in Hc; congruence).
    assert (d = 2) by (vm_compute in Hd; congruence).
    assert (c' = 100) by (vm_compute in Hc'; congruence).
    assert (d' = 1) by (vm_compute in Hd'; congruence).
    subst. split; assumption.
Defined.

(** C2 as stated fails: country A is reported by two provinces, so each of
    its dates has two rows.  The second row of the first date has
    new_cases = 10, not zero, and the first row of the second date has the
    difference between two provinces, 11 - 20. *)
Lemma province_rows_break_the_dates :
  map (fun m => (date (m_row m), total_cases (m_row m), new_cases m))
    metrics_split
  = [(20210101, Some 10, Some 0); (20210101, Some 20, Some 10);
     (20210102, Some 11, Some (-9)); (20210102, Some 22, Some 11)]
  /\ ~ (forall m,
          In m metrics_split ->
          (forall q, In q metrics_split ->
                     country (m_row q) = country (m_row m) ->
                     date (m_row m) <= date (m_row q)) ->
          new_cases m = Some 0).
Proof.
  split; [ vm_compute; reflexivity | ].
  intros H. specialize (H (nth 1 metrics_split blank_metrics)).
  assert (Hin : In (nth 1 metrics_split blank_metrics) metrics_split)
    by (vm_compute; right; left; reflexivity).
  assert (Hmin : forall q, In q metrics_split ->
            country (m_row q) = country (m_row (nth 1 metrics_split blank_metrics)) ->
            date (m_row (nth 1 metrics_split blank_metrics)) <= date (m_row q)).
  { intros q Hq _. vm_compute in Hq.
    destruct Hq as [<- | [<- | [<- | [<- | []]]]]; vm_compute; discriminate. }
  specialize (H Hin Hmin). vm_compute in H. discriminate.
Qed.

(** C6, as the cell has it.  Take a (country, date) pair.  If, when its
    country is among the translated selection names, the pair has at most
    one row in each of the three cumulative frames, and, when its country is
    among the names as typed, at most one record in the rate source, then
    the panel has exactly one row for the pair when it is a pair of the
    filtered cumulative frame, and no row for it otherwise.  Pairs of
    countries that are not selected may be repeated at will. *)
Theorem one_row_per_selected_pair :
  forall (confirmed deaths recovered : list dated_row) (owid : list owid_row)
    (countries : list string) (k : key),
    (In (fst k) (countries_jhu countries) ->
     (length (rows_at series_key k (select confirmed)) <= 1)%nat
     /\ (length (rows_at series_key k (select deaths)) <= 1)%nat
     /\ (length (rows_at series_key k (select recovered)) <= 1)%nat) ->
    (In (fst k) countries ->
     (length (rows_at owid_key k owid) <= 1)%nat) ->
    (In k (map jhu_key (df_jhu_selected confirmed deaths recovered countries)) ->
     length (rows_at panel_key k
               (df_combined confirmed deaths recovered owid countries)) = 1%nat)
    /\
    (~ In k (map jhu_key (df_jhu_selected confirmed deaths recovered countries)) ->
     rows_at panel_key k
       (df_combined confirmed deaths recovered owid countries) = []).
Proof.
  intros confirmed deaths recovered owid countries k Hjhu Howid. split.
  - intros Hk.
    apply (rows_at_present jhu_key) in Hk. rewrite selected_count in Hk.
    unfold df_combined.
    rewrite (merge_left_count metrics_key rated_key panel_key)
      by apply join_owid_key.
    rewrite filtered_count, selected_count, owid_filtered_count.
    destruct (isin (fst k) (countries_jhu countries)) eqn:Ej; [ | lia ].
    apply isin_In in Ej. specialize (Hjhu Ej). destruct Hjhu as [Hc [Hd Hr]].
    unfold df_jhu in *.
    rewrite (merge_left_count cd_key series_key jhu_key) in *
      by apply join_recovered_key.
    rewrite (merge_inner_count series_key series_key cd_key) in *
      by apply join_deaths_key.
    destruct (isin (fst k) countries) eqn:Eo.
    + apply isin_In in Eo. specialize (Howid Eo). nia.
    + nia.
  - intros Hk. apply rows_at_absent. intros Hin. apply Hk.
    now apply (combined_keys confirmed deaths recovered owid countries k).
Qed.

(** Country A on its first day, next to a country reported by province
    that is not selected. *)
Lemma one_row_per_selected_pair_witness :
  In ("A", 20210101)
    (map jhu_key
       (df_jhu_selected (dated cases_A ++ dated by_province)
          (dated deaths_A ++ dated by_province) [] ["A"]))
  /\ length (rows_at panel_key ("A", 20210101)
               (df_combined (dated cases_A ++ dated by_province)
                  (dated deaths_A ++ dated by_province) [] owid_A ["A"]))
     = 1%nat.
Proof.
  assert (Hk : In ("A", 20210101)
                 (map jhu_key
                    (df_jhu_selected (dated cases_A ++ dated by_province)
                       (dated deaths_A ++ dated by_province) [] ["A"])))
    by (vm_compute; left; reflexivity).
  split; [ exact Hk | ].
  apply (one_row_per_selected_pair (dated cases_A ++ dated by_province)
           (dated deaths_A ++ dated by_province) [] owid_A ["A"]
           ("A", 20210101)).
  - intros _. vm_compute. repeat split; lia.
  - intros _. vm_compute. lia.
  - exact Hk.
Defined.
